(** * VrpcAgent: a shallow embedding of [vrpc/VrpcAgent.js]

    The agent is a JavaScript class that reacts to events of an MQTT client.
    Its handlers are embedded as computations in a small monad that threads
    the agent object and the adapter, collects the calls made on the MQTT
    client, the event emitter and the logger in the order they happen, and
    propagates JavaScript exceptions.  Embedded are the constructor with its
    validation, the connect, reconnect and message handlers with the client
    and instance tracker they drive, and [end].  [serve], which creates the
    client and binds the handlers, and the forwarding of adapter callbacks
    are left out. *)

From Stdlib Require Import List String Ascii Bool Arith Lia DecimalString.
Import ListNotations.
Local Open Scope string_scope.

Set Warnings "-register-all".

(** ** JavaScript values *)

(** Envelopes are what [JSON.parse] returns, afterwards mutated by the
    adapter.  A number is carried by its JavaScript string form
    ([String(n)]), so that template literals and key comparison need no
    floating point.  [VBigInt] stands for the values [JSON.stringify] throws
    on.  An array is an object whose element properties are named ["0"],
    ["1"], ... in index order. *)
Inductive value : Type :=
| VUndefined
| VNull
| VBool (b : bool)
| VNum (repr : string)
| VStr (s : string)
| VBigInt (repr : string)
| VObj (isArray : bool) (props : list (string * value)).

Definition obj (props : list (string * value)) : value := VObj false props.

Inductive exn : Type :=
| Error (message : string)       (* [new Error(message)] thrown by the program *)
| TypeError (message : string)   (* raised by the engine *)
| SyntaxError (message : string) (* raised by [JSON.parse] *).

Definition err_message (e : exn) : string :=
  match e with
  | Error m | TypeError m | SyntaxError m => m
  end.

Inductive result (X : Type) : Type :=
| OK (x : X)
| Throw (e : exn).
Arguments OK {X} x.
Arguments Throw {X} e.

(** [if (v)] *)
Definition truthy (v : value) : bool :=
  match v with
  | VUndefined | VNull => false
  | VBool b => b
  | VNum r => negb (String.eqb r "0" || String.eqb r "NaN")
  | VStr s => negb (String.eqb s "")
  | VBigInt r => negb (String.eqb r "0")
  | VObj _ _ => true
  end.

(** [a === b].  The program only compares with a primitive on one side;
    two objects are never identified. *)
Definition strict_eq (a b : value) : bool :=
  match a, b with
  | VUndefined, VUndefined => true
  | VNull, VNull => true
  | VBool x, VBool y => Bool.eqb x y
  | VNum x, VNum y => String.eqb x y && negb (String.eqb x "NaN")
  | VStr x, VStr y => String.eqb x y
  | VBigInt x, VBigInt y => String.eqb x y
  | _, _ => false
  end.

(** Key comparison of [Map] and [Set] (SameValueZero).  Objects are compared
    by reference; every object the agent sees comes fresh out of a parsed
    message, so an object is never found again as a key. *)
Definition same_value_zero (a b : value) : bool :=
  match a, b with
  | VUndefined, VUndefined => true
  | VNull, VNull => true
  | VBool x, VBool y => Bool.eqb x y
  | VNum x, VNum y => String.eqb x y
  | VStr x, VStr y => String.eqb x y
  | VBigInt x, VBigInt y => String.eqb x y
  | _, _ => false
  end.

Definition is_digit (c : ascii) : bool :=
  let n := nat_of_ascii c in Nat.leb 48 n && Nat.leb n 57.

Definition is_index (k : string) : bool :=
  negb (String.eqb k "") && forallb is_digit (list_ascii_of_string k).

Fixpoint join (sep : string) (l : list string) : string :=
  match l with
  | [] => ""
  | [x] => x
  | x :: rest => x ++ sep ++ join sep rest
  end.

(** [`${v}`]: the string a template literal inserts for [v]. *)
Fixpoint template_str (v : value) : string :=
  match v with
  | VUndefined => "undefined"
  | VNull => "null"
  | VBool true => "true"
  | VBool false => "false"
  | VNum r => r
  | VStr s => s
  | VBigInt r => r
  | VObj false _ => "[object Object]"
  | VObj true props =>
      join ","
        ((fix elements (ps : list (string * value)) : list string :=
            match ps with
            | [] => []
            | (k, x) :: rest =>
                let s := template_str x in
                if is_index k
                then match x with VUndefined | VNull => "" | _ => s end
                       :: elements rest
                else elements rest
            end) props)
  end.

(** ** Properties of objects *)

Fixpoint assoc (k : string) (props : list (string * value)) : option value :=
  match props with
  | [] => None
  | (k', v) :: rest => if String.eqb k k' then Some v else assoc k rest
  end.

Fixpoint assoc_set (k : string) (v : value) (props : list (string * value))
  : list (string * value) :=
  match props with
  | [] => [(k, v)]
  | (k', v') :: rest =>
      if String.eqb k k' then (k', v) :: rest else (k', v') :: assoc_set k v rest
  end.

(** [o.k], for the property names the agent reads (none of them is a
    built-in property of a primitive or of an array). *)
Definition get_prop (o : value) (k : string) : result value :=
  match o with
  | VUndefined | VNull =>
      Throw (TypeError ("Cannot read property '" ++ k ++ "' of " ++ template_str o))
  | VObj _ props =>
      match assoc k props with
      | Some v => OK v
      | None => OK VUndefined
      end
  | _ => OK VUndefined
  end.

(** [o.k = v].  Class bodies are strict code: assigning to a property of a
    primitive throws. *)
Definition set_prop (o : value) (k : string) (v : value) : result value :=
  match o with
  | VObj a props => OK (VObj a (assoc_set k v props))
  | VUndefined | VNull =>
      Throw (TypeError ("Cannot set property '" ++ k ++ "' of " ++ template_str o))
  | _ =>
      Throw (TypeError ("Cannot create property '" ++ k ++ "' on " ++ template_str o))
  end.

(** ** JSON text *)

(** Does [JSON.stringify v] return?  It throws on a BigInt anywhere in what
    it serializes; named properties of an array are not serialized. *)
Fixpoint serializable (v : value) : bool :=
  match v with
  | VBigInt _ => false
  | VObj a props =>
      (fix all (ps : list (string * value)) : bool :=
         match ps with
         | [] => true
         | (k, x) :: rest =>
             (if a && negb (is_index k) then true else serializable x) && all rest
         end) props
  | _ => true
  end.

(** The body of an MQTT message.  [JSONText v] is the text that
    [JSON.stringify v] returns, and a text that [JSON.parse] turns into [v];
    [NotJSON s] is any other text; [NoPayload] is the [null] message that
    clears a retained slot. *)
Inductive payload : Type :=
| JSONText (v : value)
| NotJSON (text : string)
| NoPayload.

Definition JSON_stringify (v : value) : result payload :=
  if serializable v then OK (JSONText v)
  else Throw (TypeError "Do not know how to serialize a BigInt").

Definition JSON_parse (p : payload) : result value :=
  match p with
  | JSONText v => OK v
  | NotJSON _ | NoPayload => Throw (SyntaxError "Unexpected token in JSON")
  end.

(** The member [k] of the object or array that the text of [v] denotes:
    [JSON.stringify] leaves a property that holds [undefined] out of an
    object and writes it as [null] in an array, and leaves the named
    properties of an array out. *)
Definition text_member (v : value) (k : string) : option value :=
  match v with
  | VObj false props =>
      match assoc k props with
      | Some VUndefined | None => None
      | Some x => Some x
      end
  | VObj true props =>
      if is_index k then
        match assoc k props with
        | Some VUndefined => Some VNull
        | r => r
        end
      else None
  | _ => None
  end.

(** The reply text carries [data.k]. *)
Definition carries (json : value) (k : string) : bool :=
  match text_member json "data" with
  | Some data => match text_member data k with Some _ => true | None => false end
  | None => false
  end.

(** ** Strings *)

(** [s.split('/')] *)
Fixpoint split (sep : ascii) (s : string) : list string :=
  match s with
  | EmptyString => [EmptyString]
  | String c rest =>
      if Ascii.eqb c sep then EmptyString :: split sep rest
      else match split sep rest with
           | tok :: toks => String c tok :: toks
           | [] => [String c EmptyString]
           end
  end.

(** [s.slice(0, -n)] *)
Definition slice_0_minus (n : nat) (s : string) : string :=
  substring 0 (String.length s - n) s.

(** [s.match(/[+/#*]/)] is not [null] *)
Definition matches_forbidden (s : string) : bool :=
  existsb (fun c => existsb (Ascii.eqb c) ["+"; "/"; "#"; "*"]%char)
          (list_ascii_of_string s).

(** ** [Set] and [Map] *)

(** Both keep insertion order, which [forEach] follows. *)
Definition JSSet : Type := list value.

Definition Set_has (s : JSSet) (v : value) : bool := existsb (same_value_zero v) s.

Definition Set_add (s : JSSet) (v : value) : JSSet :=
  if Set_has s v then s else (s ++ [v])%list.

Definition Set_delete (s : JSSet) (v : value) : JSSet :=
  filter (fun x => negb (same_value_zero v x)) s.

(** A [Set] has a [size] and no [length]: reading [s.length] yields
    [undefined]. *)
Definition Set_length (s : JSSet) : value := VUndefined.

Definition JSMap : Type := list (value * JSSet).

Fixpoint Map_get (m : JSMap) (k : value) : option JSSet :=
  match m with
  | [] => None
  | (k', s) :: rest => if same_value_zero k k' then Some s else Map_get rest k
  end.

Definition Map_has (m : JSMap) (k : value) : bool :=
  match Map_get m k with Some _ => true | None => false end.

Fixpoint Map_set (m : JSMap) (k : value) (s : JSSet) : JSMap :=
  match m with
  | [] => [(k, s)]
  | (k', s') :: rest =>
      if same_value_zero k k' then (k', s) :: rest else (k', s') :: Map_set rest k s
  end.

Definition Map_delete (m : JSMap) (k : value) : JSMap :=
  filter (fun e => negb (same_value_zero k (fst e))) m.

Definition Map_keys (m : JSMap) : list value := map fst m.

(** ** The agent object and its surroundings *)

(** The MQTT client the agent holds once [serve] has created it; [connected]
    is the library's flag. *)
Record MqttClient : Type := { connected : bool }.

Record VrpcAgent : Type := {
  _username : option string;
  _password : option string;
  _token : option string;
  _agent : string;
  _domain : string;
  _broker : string;
  _qos : nat;
  _version : string;
  _isReconnect : bool;
  _baseTopic : string;
  _unnamedInstances : JSMap;  (* maps clientId to instanceId *)
  _namedInstances : JSMap;
  _client : option MqttClient
}.

Definition set_isReconnect (b : bool) (a : VrpcAgent) : VrpcAgent :=
  {| _username := _username a; _password := _password a; _token := _token a;
     _agent := _agent a; _domain := _domain a; _broker := _broker a;
     _qos := _qos a; _version := _version a; _isReconnect := b;
     _baseTopic := _baseTopic a; _unnamedInstances := _unnamedInstances a;
     _namedInstances := _namedInstances a; _client := _client a |}.

Definition set_unnamedInstances (m : JSMap) (a : VrpcAgent) : VrpcAgent :=
  {| _username := _username a; _password := _password a; _token := _token a;
     _agent := _agent a; _domain := _domain a; _broker := _broker a;
     _qos := _qos a; _version := _version a; _isReconnect := _isReconnect a;
     _baseTopic := _baseTopic a; _unnamedInstances := m;
     _namedInstances := _namedInstances a; _client := _client a |}.

Definition set_namedInstances (m : JSMap) (a : VrpcAgent) : VrpcAgent :=
  {| _username := _username a; _password := _password a; _token := _token a;
     _agent := _agent a; _domain := _domain a; _broker := _broker a;
     _qos := _qos a; _version := _version a; _isReconnect := _isReconnect a;
     _baseTopic := _baseTopic a; _unnamedInstances := _unnamedInstances a;
     _namedInstances := m; _client := _client a |}.

Definition set_client (c : option MqttClient) (a : VrpcAgent) : VrpcAgent :=
  {| _username := _username a; _password := _password a; _token := _token a;
     _agent := _agent a; _domain := _domain a; _broker := _broker a;
     _qos := _qos a; _version := _version a; _isReconnect := _isReconnect a;
     _baseTopic := _baseTopic a; _unnamedInstances := _unnamedInstances a;
     _namedInstances := _namedInstances a; _client := c |}.

Inductive level : Type := debug | info | warn | error.

(** What the agent does to the outside, in the order it does it: calls on
    the MQTT client, on its own event emitter and on the log sink. *)
Inductive event : Type :=
| Publish (topic : value) (message : payload) (qos : nat) (retain : bool)
| Subscribe (topics : list string) (qos : nat)
| Unsubscribe (topic : string)
| Emit (name : string)
| Log (lvl : level) (text : string)
| AdapterCall (envelope : value)               (* [VrpcAdapter._call(json)] *)
| AdapterUnregisterEventListeners (clientId : value)
| ClientEnd               (* [this._client.end(false, {}, resolve)] *)
| ClearPersistedSession   (* the clean-session connect of [_clearPersistedSession] *).

(** The adapter as the agent uses it.  [VrpcAdapter.js] is not among the
    sources, so the agent is embedded over any adapter with these
    operations.  [_call] mutates the envelope it is given and may throw; the
    read-only views and [_unregisterEventListeners] are taken to return. *)
Class VrpcAdapter (A : Type) : Type := {
  _call : value -> A -> result value * A;
  getAvailableClasses : A -> list string;
  getAvailableInstances : string -> A -> list string;
  getAvailableMemberFunctions : string -> A -> list string;
  getAvailableStaticFunctions : string -> A -> list string;
  getAvailableMetaData : string -> A -> value;
  _unregisterEventListeners : value -> A -> A
}.

(** The constructor's argument, typed as its documentation types it; [None]
    is a key that is left out. *)
Record options : Type := {
  domain : option string;
  agent : option string;
  username : option string;
  password : option string;
  token : option string;
  broker : option string;
  bestEffort : option bool;
  version : option string
}.

Definition dquote : string := String (ascii_of_nat 34) EmptyString.

Definition forbidden_list : string :=
  dquote ++ "+" ++ dquote ++ ", " ++ dquote ++ "/" ++ dquote ++ ", "
  ++ dquote ++ "#" ++ dquote ++ ", " ++ dquote ++ "*" ++ dquote.

Definition default {X : Type} (d : X) (o : option X) : X :=
  match o with Some x => x | None => d end.

(** [!s] for an optional string: the key is left out, or holds [''] *)
Definition falsy_string (s : option string) : bool :=
  match s with
  | None => true
  | Some x => String.eqb x EmptyString
  end.

Definition _validateDomain (domain : option string) : result unit :=
  if falsy_string domain then Throw (Error "The domain must be specified")
  else if matches_forbidden (default EmptyString domain) then
    Throw (Error ("The domain must NOT contain any of those characters: "
                  ++ forbidden_list))
  else OK tt.

Definition _validateAgent (agent : option string) : result unit :=
  if falsy_string agent then Throw (Error "The agent must be specified")
  else if matches_forbidden (default EmptyString agent) then
    Throw (Error ("The agent must NOT contain any of those characters: "
                  ++ forbidden_list))
  else OK tt.

(** [new VrpcAgent(o)].  The log sink and the callback handler installed on
    the adapter are not part of the embedded object. *)
Definition constructor (o : options) : result VrpcAgent :=
  match _validateDomain (domain o) with
  | Throw e => Throw e
  | OK _ =>
      match _validateAgent (agent o) with
      | Throw e => Throw e
      | OK _ =>
          let d := default EmptyString (domain o) in
          let a := default EmptyString (agent o) in
          OK {| _username := username o;
                _password := password o;
                _token := token o;
                _agent := a;
                _domain := d;
                _broker := default "mqtts://vrpc.io:8883" (broker o);
                _qos := if default false (bestEffort o) then 0 else 1;
                _version := default EmptyString (version o);
                _isReconnect := false;
                _baseTopic := d ++ "/" ++ a;
                _unnamedInstances := [];
                _namedInstances := [];
                _client := None |}
      end
  end.

(** ** The monad of the handlers *)

Declare Scope js_scope.
Delimit Scope js_scope with js.

Section Agent.

Context {A : Type} {adapterOps : VrpcAdapter A}.

(** The agent object, the adapter (a singleton of static members in the
    source) and what [os.hostname()] returns. *)
Record world : Type := { this : VrpcAgent; adapter : A; hostname : string }.

(** A computation returns or throws, leaves a world behind either way, and
    lists the events it caused, oldest first. *)
Definition M (X : Type) : Type := world -> result X * world * list event.

Definition ret {X : Type} (x : X) : M X := fun w => (OK x, w, []).

Definition throw {X : Type} (e : exn) : M X := fun w => (Throw e, w, []).

Definition bind {X Y : Type} (m : M X) (f : X -> M Y) : M Y :=
  fun w =>
    match m w with
    | (OK x, w1, t1) =>
        match f x w1 with
        | (r, w2, t2) => (r, w2, (t1 ++ t2)%list)
        end
    | (Throw e, w1, t1) => (Throw e, w1, t1)
    end.

(** [try { m } catch (err) { h err }] *)
Definition try_catch {X : Type} (m : M X) (h : exn -> M X) : M X :=
  fun w =>
    match m w with
    | (OK x, w1, t1) => (OK x, w1, t1)
    | (Throw e, w1, t1) =>
        match h e w1 with
        | (r, w2, t2) => (r, w2, (t1 ++ t2)%list)
        end
    end.

Definition lift {X : Type} (r : result X) : M X := fun w => (r, w, []).

Definition tell (e : event) : M unit := fun w => (OK tt, w, [e]).

Definition get_this : M VrpcAgent := fun w => (OK (this w), w, []).

Definition modify_this (f : VrpcAgent -> VrpcAgent) : M unit :=
  fun w =>
    (OK tt, {| this := f (this w); adapter := adapter w; hostname := hostname w |}, []).

Definition get_adapter : M A := fun w => (OK (adapter w), w, []).

Notation "x <- m ;; k" := (bind m (fun x => k))
  (at level 61, m at next level, right associativity) : js_scope.
Notation "m ;; k" := (bind m (fun _ => k))
  (at level 61, right associativity) : js_scope.
Local Open Scope js_scope.

(** [l.forEach(f)] *)
Fixpoint forEach {X : Type} (l : list X) (f : X -> M unit) : M unit :=
  match l with
  | [] => ret tt
  | x :: rest => f x ;; forEach rest f
  end.

Definition log (lvl : level) (text : string) : M unit := tell (Log lvl text).

Definition emit (name : string) : M unit := tell (Emit name).

(** [VrpcAdapter._call(json)]: the envelope comes back mutated, or the call
    throws. *)
Definition adapter_call (json : value) : M value :=
  fun w =>
    match _call json (adapter w) with
    | (r, a) =>
        (r, {| this := this w; adapter := a; hostname := hostname w |},
         [AdapterCall json])
    end.

Definition adapter_unregisterEventListeners (clientId : value) : M unit :=
  fun w =>
    (OK tt,
     {| this := this w;
        adapter := _unregisterEventListeners clientId (adapter w);
        hostname := hostname w |},
     [AdapterUnregisterEventListeners clientId]).

(** ** Methods of the agent *)

Definition index_key (n : nat) : string := NilEmpty.string_of_uint (Nat.to_uint n).

(** The array [[s0, s1, ...]] of strings *)
Definition array_of_strings (l : list string) : value :=
  VObj true (combine (map index_key (seq 0 (List.length l))) (map VStr l)).

Definition _createAgentInfoPayload (status : string) : M payload :=
  fun w =>
    (JSON_stringify
       (obj [("status", VStr status);
             ("hostname", VStr (hostname w));
             ("version", VStr (_version (this w)))]),
     w, []).

(** The three calls below pass a callback that logs a warning when the
    broker later reports a failure; that report is not part of a handler's
    run.  Calling a method of [this._client] before [serve] has set it
    throws. *)
Definition _mqttPublish (topic : value) (message : payload) (retain : bool) : M unit :=
  a <- get_this ;;
  match _client a with
  | None => throw (TypeError "Cannot read property 'publish' of undefined")
  | Some _ => tell (Publish topic message (_qos a) retain)
  end.

Definition _mqttSubscribe (topics : list string) : M unit :=
  a <- get_this ;;
  match _client a with
  | None => throw (TypeError "Cannot read property 'subscribe' of undefined")
  | Some _ => tell (Subscribe topics (_qos a))
  end.

Definition _mqttUnsubscribe (topic : string) : M unit :=
  a <- get_this ;;
  match _client a with
  | None => throw (TypeError "Cannot read property 'unsubscribe' of undefined")
  | Some _ => tell (Unsubscribe topic)
  end.

Definition _getClasses : M (list string) :=
  a <- get_adapter ;; ret (getAvailableClasses a).

Definition _getInstances (className : string) : M (list string) :=
  a <- get_adapter ;; ret (getAvailableInstances className a).

Definition _getMemberFunctions (className : string) : M (list string) :=
  a <- get_adapter ;; ret (getAvailableMemberFunctions className a).

Definition _getStaticFunctions (className : string) : M (list string) :=
  a <- get_adapter ;; ret (getAvailableStaticFunctions className a).

Definition _getMetaData (className : string) : M value :=
  a <- get_adapter ;; ret (getAvailableMetaData className a).

Definition _publishAgentInfoMessage : M unit :=
  a <- get_this ;;
  p <- _createAgentInfoPayload "online" ;;
  _mqttPublish (VStr (_baseTopic a ++ "/__agentInfo__")) p true.

Definition classInfo_topic (a : VrpcAgent) (className : string) : string :=
  _baseTopic a ++ "/" ++ className ++ "/__classInfo__".

Definition _publishClassInfoMessage (className : string) : M unit :=
  instances <- _getInstances className ;;
  memberFunctions <- _getMemberFunctions className ;;
  staticFunctions <- _getStaticFunctions className ;;
  meta <- _getMetaData className ;;
  let json :=
    obj [("className", VStr className);
         ("instances", array_of_strings instances);
         ("memberFunctions", array_of_strings memberFunctions);
         ("staticFunctions", array_of_strings staticFunctions);
         ("meta", meta)] in
  try_catch
    (a <- get_this ;;
     p <- lift (JSON_stringify json) ;;
     _mqttPublish (VStr (classInfo_topic a className)) p true)
    (fun err => log error ("Problem during publishing class info: " ++ err_message err)).

Definition _generateTopics : M (list string) :=
  classes <- _getClasses ;;
  (if Nat.ltb 0 (List.length classes)
   then log info ("Registering classes: " ++ join ", " classes)
   else log warn "No classes are registered") ;;
  a <- get_this ;;
  ad <- get_adapter ;;
  ret (flat_map
         (fun className =>
            map (fun func => _baseTopic a ++ "/" ++ className ++ "/__static__/" ++ func)
                (getAvailableStaticFunctions className ad))
         classes).

Definition _handleConnect : M unit :=
  log info "[OK]" ;;
  a <- get_this ;;
  if _isReconnect a then
    _publishAgentInfoMessage ;;
    emit "connect" ;;
    modify_this (set_isReconnect false)
  else
    try_catch
      (topics <- _generateTopics ;;
       if Nat.ltb 0 (List.length topics) then _mqttSubscribe topics else ret tt)
      (fun err =>
         log error ("Problem during initial topic subscription: " ++ err_message err)) ;;
    (* Publish agent online *)
    _publishAgentInfoMessage ;;
    (* Publish class information *)
    classes <- _getClasses ;;
    forEach classes _publishClassInfoMessage ;;
    emit "connect".

Definition _handleReconnect : M unit :=
  modify_this (set_isReconnect true) ;;
  a <- get_this ;;
  log warn ("Reconnecting to " ++ _broker a) ;;
  emit "reconnect".

(** *** The client and instance tracker *)

Definition clientInfo_topic (clientId : value) : string :=
  template_str clientId ++ "/__clientInfo__".

Definition _registerUnnamedInstance (instanceId clientId : value) : M unit :=
  a <- get_this ;;
  match Map_get (_unnamedInstances a) clientId with
  | Some entry => (* already seen *)
      modify_this
        (set_unnamedInstances
           (Map_set (_unnamedInstances a) clientId (Set_add entry instanceId)))
  | None => (* new instance *)
      modify_this
        (set_unnamedInstances (Map_set (_unnamedInstances a) clientId [instanceId])) ;;
      (if negb (Map_has (_namedInstances a) clientId)
       then _mqttSubscribe [clientInfo_topic clientId]
       else ret tt) ;;
      log info ("Tracking lifetime of client: " ++ template_str clientId)
  end.

Definition _registerNamedInstance (instanceId clientId : value) : M unit :=
  a <- get_this ;;
  match Map_get (_namedInstances a) clientId with
  | Some entry => (* already seen *)
      modify_this
        (set_namedInstances
           (Map_set (_namedInstances a) clientId (Set_add entry instanceId)))
  | None => (* new instance *)
      modify_this
        (set_namedInstances (Map_set (_namedInstances a) clientId [instanceId])) ;;
      (if negb (Map_has (_unnamedInstances a) clientId)
       then _mqttSubscribe [clientInfo_topic clientId]
       else ret tt) ;;
      log debug ("Tracking lifetime of client: " ++ template_str clientId)
  end.

Definition _hasNamedInstance (instanceId : value) : M bool :=
  a <- get_this ;;
  ret (existsb (fun e => Set_has (snd e) instanceId) (_namedInstances a)).

(** The body of [this._namedInstances.forEach(async (v) => ...)] in
    [_unregisterInstance], run over the entries in insertion order.  The
    callback has no [await], so it runs to its end at each entry.  [gone]
    records that [this._namedInstances.delete(clientId)] has run: an entry
    deleted before its turn is not visited.  The result is the entries that
    were visited, the flag [found], and [gone]. *)
Fixpoint _unregisterInstance_forEach (instanceId clientId : value)
    (entries : JSMap) (found gone : bool) : M (JSMap * bool * bool) :=
  match entries with
  | [] => ret ([], found, gone)
  | (k, v) :: rest =>
      if gone && same_value_zero clientId k then
        _unregisterInstance_forEach instanceId clientId rest found gone
      else if Set_has v instanceId then
        let v' := Set_delete v instanceId in
        if strict_eq (Set_length v') (VNum "0") then
          _mqttUnsubscribe (clientInfo_topic clientId) ;;
          log debug ("Stopped tracking lifetime of client: " ++ template_str clientId) ;;
          r <- _unregisterInstance_forEach instanceId clientId rest true true ;;
          let '(m, f, g) := r in ret ((k, v') :: m, f, g)
        else
          r <- _unregisterInstance_forEach instanceId clientId rest true gone ;;
          let '(m, f, g) := r in ret ((k, v') :: m, f, g)
      else
        r <- _unregisterInstance_forEach instanceId clientId rest found gone ;;
        let '(m, f, g) := r in ret ((k, v) :: m, f, g)
  end.

(** Returns whether the instance was a named one. *)
Definition _unregisterInstance (instanceId clientId : value) : M bool :=
  a <- get_this ;;
  let named_part : M bool :=
    r <- _unregisterInstance_forEach instanceId clientId (_namedInstances a) false false ;;
    let '(m, found, gone) := r in
    modify_this (set_namedInstances (if gone then Map_delete m clientId else m)) ;;
    if negb found then
      log warn ("Failed un-registering not registered instance: "
                ++ template_str instanceId) ;;
      ret false
    else ret true in
  match Map_get (_unnamedInstances a) clientId with
  | Some entryUnnamed =>
      if Set_has entryUnnamed instanceId then
        let entryUnnamed' := Set_delete entryUnnamed instanceId in
        modify_this
          (set_unnamedInstances (Map_set (_unnamedInstances a) clientId entryUnnamed')) ;;
        (if strict_eq (Set_length entryUnnamed') (VNum "0") then
           modify_this
             (fun a' => set_unnamedInstances (Map_delete (_unnamedInstances a') clientId) a') ;;
           _mqttUnsubscribe (clientInfo_topic clientId) ;;
           log debug ("Stopped tracking lifetime of client: " ++ template_str clientId)
         else ret tt) ;;
        ret false
      else named_part
  | None => named_part
  end.

Definition instance_topic (a : VrpcAgent) (className instance : string) : string :=
  _baseTopic a ++ "/" ++ className ++ "/" ++ instance ++ "/+".

Definition _subscribeToMethodsOfNewInstance (className : string) (instance : value)
  : M unit :=
  a <- get_this ;;
  let topic := instance_topic a className (template_str instance) in
  _mqttSubscribe [topic] ;;
  log debug ("Subscribed to new topic after instantiation: " ++ topic).

Definition _unsubscribeMethodsOfDeletedInstance (className instance : string)
  : M unit :=
  a <- get_this ;;
  let topic := instance_topic a className instance in
  _mqttUnsubscribe topic ;;
  log debug ("Unsubscribed from topic after deletion: " ++ topic).

Definition _handleClientInfoMessage (topic : string) (json : value) : M unit :=
  (* Client went offline *)
  let clientId := slice_0_minus 9 topic in
  status <- lift (get_prop json "status") ;;
  if strict_eq status (VStr "offline") then
    a <- get_this ;;
    match Map_get (_unnamedInstances a) (VStr clientId) with
    | Some entry => (* anonymous *)
        forEach entry
          (fun instanceId =>
             let json := obj [("data", obj [("_1", instanceId)]);
                              ("method", VStr "__delete__")] in
             json <- adapter_call json ;;
             data <- lift (get_prop json "data") ;;
             r <- lift (get_prop data "r") ;;
             if truthy r
             then log debug ("Deleted unnamed instance: " ++ template_str instanceId)
             else ret tt)
    | None => ret tt
    end ;;
    adapter_unregisterEventListeners (VStr clientId) ;;
    _mqttUnsubscribe (clientId ++ "/__clientInfo__")
  else ret tt.

(** *** Incoming messages *)

Definition not_serializable : string := "__vrpc::not-serializable__".

(** The [switch (method)] of [_handleMessage]; returns [publishClassInfo]. *)
Definition lifecycle (className instance method : string) (json : value) : M bool :=
  if String.eqb method "__create__" then
    data <- lift (get_prop json "data") ;;
    instanceId <- lift (get_prop data "r") ;;
    _subscribeToMethodsOfNewInstance className instanceId ;;
    sender <- lift (get_prop json "sender") ;;
    _registerUnnamedInstance instanceId sender ;;
    ret false
  else if String.eqb method "__createNamed__" then
    data <- lift (get_prop json "data") ;;
    instanceId <- lift (get_prop data "r") ;;
    known <- _hasNamedInstance instanceId ;;
    (if negb known
     then _subscribeToMethodsOfNewInstance className instanceId
     else ret tt) ;;
    sender <- lift (get_prop json "sender") ;;
    _registerNamedInstance instanceId sender ;;
    ret (negb known)
  else if String.eqb method "__getNamed__" then
    data <- lift (get_prop json "data") ;;
    _1 <- lift (get_prop data "_1") ;;
    e <- lift (get_prop data "e") ;;
    sender <- lift (get_prop json "sender") ;;
    (if negb (truthy e) then _registerNamedInstance _1 sender else ret tt) ;;
    ret false
  else if String.eqb method "__delete__" then
    data <- lift (get_prop json "data") ;;
    _1 <- lift (get_prop data "_1") ;;
    sender <- lift (get_prop json "sender") ;;
    _unsubscribeMethodsOfDeletedInstance className instance ;;
    wasNamed <- _unregisterInstance _1 sender ;;
    ret wasNamed
  else ret false.

(** [JSON.stringify(json)], with the fallback of [_handleMessage]; returns
    the text and the envelope as it is afterwards. *)
Definition stringify_reply (json : value) : M (payload * value) :=
  try_catch
    (jsonString <- lift (JSON_stringify json) ;; ret (jsonString, json))
    (fun err =>
       context <- lift (get_prop json "context") ;;
       method <- lift (get_prop json "method") ;;
       log debug ("Failed serialization of return value for: " ++ template_str context
                  ++ "::" ++ template_str method ++ ", because: " ++ err_message err) ;;
       data <- lift (get_prop json "data") ;;
       data <- lift (set_prop data "r" (VStr not_serializable)) ;;
       json <- lift (set_prop json "data" data) ;;
       jsonString <- lift (JSON_stringify json) ;;
       ret (jsonString, json)).

Definition _handleMessage (topic : string) (data : payload) : M unit :=
  try_catch
    (json <- lift (JSON_parse data) ;;
     log debug ("Message arrived with topic: " ++ topic ++ " and payload:") ;;
     let tokens := split "/" topic in
     (* Special case: clientInfo message *)
     if Nat.eqb (List.length tokens) 4
        && String.eqb (nth 3 tokens EmptyString) "__clientInfo__"
     then _handleClientInfoMessage topic json
     (* Anything else must follow RPC protocol *)
     else if negb (Nat.eqb (List.length tokens) 5)
     then log warn ("Ignoring message with invalid topic: " ++ topic)
     else
       let className := nth 2 tokens EmptyString in
       let instance := nth 3 tokens EmptyString in
       let method := nth 4 tokens EmptyString in
       (* Prepare RPC json *)
       json <- lift (set_prop json "context"
                       (VStr (if String.eqb instance "__static__"
                              then className else instance))) ;;
       json <- lift (set_prop json "method" (VStr method)) ;;
       (* Mutates json and adds return value *)
       json <- adapter_call json ;;
       (* Intersecting life-cycle functions *)
       publishClassInfo <- lifecycle className instance method json ;;
       r <- stringify_reply json ;;
       let '(jsonString, json) := r in
       (if publishClassInfo && String.eqb method "__delete__"
        then _publishClassInfoMessage className else ret tt) ;;
       sender <- lift (get_prop json "sender") ;;
       _mqttPublish sender jsonString false ;;
       (if publishClassInfo && String.eqb method "__createNamed__"
        then _publishClassInfoMessage className else ret tt))
    (fun err =>
       log error ("Problem while handling incoming message: " ++ err_message err)).

(** *** Stopping the agent *)

(** [await new Promise(resolve => this._client.end(false, {}, resolve))] *)
Definition client_end : M unit :=
  tell ClientEnd ;;
  modify_this (set_client (Some {| connected := false |})).

(** [_clearPersistedSession] opens a clean-session connection of its own and
    closes it again; only that it runs is recorded. *)
Definition _clearPersistedSession : M unit := tell ClearPersistedSession.

(** [end({ unregister })] *)
Definition end_ (unregister : bool) : M unit :=
  try_catch
    (a <- get_this ;;
     if match _client a with None => true | Some c => negb (connected c) end then
       emit "end"
     else
       let agentTopic := _baseTopic a ++ "/__agentInfo__" in
       p <- _createAgentInfoPayload "offline" ;;
       _mqttPublish (VStr agentTopic) p true ;;
       (if unregister then
          _mqttPublish (VStr agentTopic) NoPayload true ;;
          classes <- _getClasses ;;
          forEach classes
            (fun className =>
               _mqttPublish (VStr (classInfo_topic a className)) NoPayload true)
        else ret tt) ;;
       client_end ;;
       _clearPersistedSession)
    (fun err => log error ("Problem during disconnecting agent: " ++ err_message err)).

End Agent.

(** The parts of a run. *)
Definition outcome_of {A X : Type} (r : result X * @world A * list event) : result X :=
  fst (fst r).
Definition world_of {A X : Type} (r : result X * @world A * list event) : @world A :=
  snd (fst r).
Definition events_of {A X : Type} (r : result X * @world A * list event) : list event :=
  snd r.

(** ** The other handlers of the agent *)

(** The options of the persistent connection as [serve] builds them. *)
Module Mqtt.

Record Will : Type := {
  topic : string;
  payload : payload;
  qos : nat;
  retain : bool
}.

Record Options : Type := {
  username : option string;
  password : option string;
  keepalive : nat;
  connectTimeout : nat;
  clientId : string;
  rejectUnauthorized : bool;
  will : Will
}.

End Mqtt.

Section AgentRest.

Context {A : Type} {adapterOps : VrpcAdapter A}.

Local Abbreviation M := (@M A).

Local Notation "x <- m ;; k" := (bind m (fun x => k))
  (at level 61, m at next level, right associativity) : js_scope.
Local Notation "m ;; k" := (bind m (fun _ => k))
  (at level 61, right associativity) : js_scope.
Local Open Scope js_scope.

(** The first statements of [serve], up to [this._options = {...}].
    [md5_hex s] stands for
    [crypto.createHash('md5').update(s).digest('hex')]. *)
Definition serve_options (md5_hex : string -> string) : M Mqtt.Options :=
  a <- get_this ;;
  let md5 := substring 0 18 (md5_hex (_domain a ++ _agent a)) in
  let username := if falsy_string (_token a) then _username a else Some "__token__" in
  let password := if falsy_string (_token a) then _password a else _token a in
  offline <- _createAgentInfoPayload "offline" ;;
  ret {| Mqtt.username := username;
         Mqtt.password := password;
         Mqtt.keepalive := 30;
         Mqtt.connectTimeout := 10 * 1000;
         Mqtt.clientId := "vrpca" ++ md5;
         Mqtt.rejectUnauthorized := false;
         Mqtt.will := {| Mqtt.topic := _baseTopic a ++ "/__agentInfo__";
                         Mqtt.payload := offline;
                         Mqtt.qos := _qos a;
                         Mqtt.retain := true |} |}.


Definition _handleError : M unit := emit "error".

Definition _handleClose : M unit := emit "close".

Definition _handleOffline : M unit := emit "offline".

Definition _handleEnd : M unit := emit "end".

End AgentRest.

(** ** The adapter *)

(** [VrpcAdapter.js] is not among the sources.  This module is a model of
    the adapter and its registry after the specification, used where a
    statement needs a concrete adapter: classes are registered with their
    constructor and function tables, instances are kept in a table by
    identifier, and [call] dispatches an envelope. *)
Module Adapter.

(** What running a function of a registered class gives: the value it
    returns or the message of the exception it raises. *)
Inductive outcome : Type :=
| Returns (r : value)
| Raises (message : string).

(** A constructor or function of a registered class, as the host object
    system runs it: from the receiver ([undefined] for a constructor or a
    static function) and the positional arguments, to the outcome, the
    arguments as the call leaves them (out-parameters) and the receiver as
    the call leaves it.  A constructor returns the new object. *)
Definition function : Type := value -> list value -> outcome * list value * value.

Record ClassDescriptor : Type := {
  constructors : function;
  memberFunctions : list (string * function);
  staticFunctions : list (string * function);
  metaData : value
}.

Record InstanceRecord : Type := {
  object : value;
  className : string;
  named : bool;
  subscriptions : list (value * string * string) (* clientId, eventName, callbackId *)
}.

Record registry : Type := {
  classes : list (string * ClassDescriptor);
  instances : list (string * InstanceRecord);
  nextId : nat
}.

Fixpoint lookup {X : Type} (k : string) (l : list (string * X)) : option X :=
  match l with
  | [] => None
  | (k', x) :: rest => if String.eqb k k' then Some x else lookup k rest
  end.

Fixpoint update {X : Type} (k : string) (x : X) (l : list (string * X))
  : list (string * X) :=
  match l with
  | [] => [(k, x)]
  | (k', x') :: rest =>
      if String.eqb k k' then (k', x) :: rest else (k', x') :: update k x rest
  end.

Definition remove {X : Type} (k : string) (l : list (string * X)) : list (string * X) :=
  filter (fun e => negb (String.eqb k (fst e))) l.

(** Modelled from the spec: [register(class)] of the adapter;
    re-registration replaces the prior entry. *)
Definition register (name : string) (c : ClassDescriptor) (g : registry) : registry :=
  {| classes := update name c (classes g); instances := instances g; nextId := nextId g |}.

Definition arg_key (k : nat) : string := "_" ++ index_key k.

(** The arguments [_k], [_k+1], ... of [data], in this order. *)
Fixpoint unpack (data : list (string * value)) (k fuel : nat) : list value :=
  match fuel with
  | 0 => []
  | S fuel' =>
      match assoc (arg_key k) data with
      | Some v => v :: unpack data (S k) fuel'
      | None => []
      end
  end.

Definition arguments (data : value) : list value :=
  match data with
  | VObj _ props => unpack props 1 (List.length props)
  | _ => []
  end.

(** Writes the arguments back as [_k], [_k+1], ... *)
Fixpoint pack (data : list (string * value)) (k : nat) (args : list value)
  : list (string * value) :=
  match args with
  | [] => data
  | v :: rest => pack (assoc_set (arg_key k) v data) (S k) rest
  end.

Definition with_arguments (data : value) (k : nat) (args : list value) : value :=
  match data with
  | VObj a props => VObj a (pack props k args)
  | _ => data
  end.

(** Places the outcome in [data.r] or [data.e] of the envelope. *)
Definition settle (json data : value) (o : outcome) : result value :=
  match (match o with
         | Returns r => set_prop data "r" r
         | Raises m => set_prop data "e" (VStr m)
         end) with
  | OK data' => set_prop json "data" data'
  | Throw e => Throw e
  end.

Definition instance_id (n : nat) : string := "instance-" ++ index_key n.

Definition add_instance (id : string) (r : InstanceRecord) (g : registry) : registry :=
  {| classes := classes g; instances := update id r (instances g); nextId := nextId g |}.

Definition instances_of (cls : string) (g : registry) : list (string * InstanceRecord) :=
  filter (fun e => String.eqb (className (snd e)) cls) (instances g).

(** Modelled from the spec: [__callAll__] of the adapter, the function
    named by the first argument run on every instance of the class in
    registration order, with one record per instance. *)
Fixpoint callAll (c : ClassDescriptor) (method : string) (args : list value)
    (todo : list (string * InstanceRecord)) (g : registry) : list value * registry :=
  match todo with
  | [] => ([], g)
  | (id, r) :: rest =>
      match lookup method (memberFunctions c) with
      | None =>
          let '(records, g') := callAll c method args rest g in
          (obj [("id", VStr id); ("val", VNull);
                ("err", VStr ("Could not find function: " ++ method))] :: records, g')
      | Some f =>
          let '(o, _, object') := f (object r) args in
          let g1 := add_instance id
                      {| object := object'; className := className r; named := named r;
                         subscriptions := subscriptions r |} g in
          let '(records, g') := callAll c method args rest g1 in
          (match o with
           | Returns v => obj [("id", VStr id); ("val", v); ("err", VNull)]
           | Raises m => obj [("id", VStr id); ("val", VNull); ("err", VStr m)]
           end :: records, g')
      end
  end.

Definition array_of (l : list value) : value :=
  VObj true (combine (map index_key (seq 0 (List.length l))) l).

(** Modelled from the spec: the life-cycle functions of the adapter
    ([VrpcAdapter.js] is not among the sources), which every registered
    class answers to: [__create__] constructs an anonymous instance and
    answers its generated id, [__createNamed__] constructs or finds the
    instance of the given name and answers the name, [__getNamed__] answers
    the name if present and an error else, [__delete__] destroys the
    instance and answers whether it did, [__callAll__] answers one record
    per instance. *)
Definition lifecycle_call (cls : string) (c : ClassDescriptor) (method : string)
    (json data : value) (g : registry) : option (result value * registry) :=
  let args := arguments data in
  if String.eqb method "__create__" then
    let '(o, args', object') := constructors c VUndefined args in
    match o with
    | Returns new =>
        let id := instance_id (nextId g) in
        let g' :=
          {| classes := classes g;
             instances := update id {| object := new; className := cls; named := false;
                                       subscriptions := [] |} (instances g);
             nextId := S (nextId g) |} in
        Some (settle json (with_arguments data 1 args') (Returns (VStr id)), g')
    | Raises m => Some (settle json (with_arguments data 1 args') (Raises m), g)
    end
  else if String.eqb method "__createNamed__" then
    let name := template_str (hd VUndefined args) in
    match lookup name (instances g) with
    | Some _ => Some (settle json data (Returns (VStr name)), g)
    | None =>
        let '(o, args', object') := constructors c VUndefined (tl args) in
        match o with
        | Returns new =>
            Some (settle json (with_arguments data 2 args') (Returns (VStr name)),
                  add_instance name {| object := new; className := cls; named := true;
                                       subscriptions := [] |} g)
        | Raises m => Some (settle json (with_arguments data 2 args') (Raises m), g)
        end
    end
  else if String.eqb method "__getNamed__" then
    let name := template_str (hd VUndefined args) in
    match lookup name (instances g) with
    | Some _ => Some (settle json data (Returns (VStr name)), g)
    | None => Some (settle json data (Raises ("Could not find instance: " ++ name)), g)
    end
  else if String.eqb method "__delete__" then
    let name := template_str (hd VUndefined args) in
    match lookup name (instances g) with
    | Some _ =>
        Some (settle json data (Returns (VBool true)),
              {| classes := classes g; instances := remove name (instances g);
                 nextId := nextId g |})
    | None => Some (settle json data (Returns (VBool false)), g)
    end
  else if String.eqb method "__callAll__" then
    let '(records, g') :=
      callAll c (template_str (hd VUndefined args)) (tl args) (instances_of cls g) g in
    Some (settle json data (Returns (array_of records)), g')
  else None.

(** Modelled from the spec: [VrpcAdapter._call], the dispatch entry point of
    the adapter, whose file [VrpcAdapter.js] is not among the sources.  The
    steps are those of the dispatch algorithm of the specification: resolve
    the context to a registered class or else to an instance, where a
    missing context sets [data.e] to Could not find context: and the name;
    resolve the method in the table that belongs to it, where a missing
    method sets [data.e] to Could not find function: and the name; unpack
    the arguments [_1], [_2], ...; perform the call, and place the return
    value in [data.r] or the message of a raised exception in [data.e].  The
    envelope is handed back in each of these cases.  What still throws is
    what the envelope itself does not allow: reading a property of an
    envelope that is [null] or [undefined], and placing [data.r] or [data.e]
    in a [data] that is not an object.  Callback and promise placeholders
    and the registration of event listeners are left out. *)
Definition call (json : value) (g : registry) : result value * registry :=
  match get_prop json "context", get_prop json "method", get_prop json "data" with
  | OK context, OK method, OK data =>
      let context := template_str context in
      let method := template_str method in
      match lookup context (classes g) with
      | Some c =>
          match lifecycle_call context c method json data g with
          | Some r => r
          | None =>
              match lookup method (staticFunctions c) with
              | Some f =>
                  let '(o, args', _) := f VUndefined (arguments data) in
                  (settle json (with_arguments data 1 args') o, g)
              | None =>
                  (settle json data (Raises ("Could not find function: " ++ method)), g)
              end
          end
      | None =>
          match lookup context (instances g) with
          | None => (settle json data (Raises ("Could not find context: " ++ context)), g)
          | Some r =>
              match lookup (className r) (classes g) with
              | None =>
                  (settle json data (Raises ("Could not find context: " ++ context)), g)
              | Some c =>
                  match lookup method (memberFunctions c) with
                  | Some f =>
                      let '(o, args', object') := f (object r) (arguments data) in
                      (settle json (with_arguments data 1 args') o,
                       add_instance context
                         {| object := object'; className := className r;
                            named := named r; subscriptions := subscriptions r |} g)
                  | None =>
                      (settle json data
                         (Raises ("Could not find function: " ++ method)), g)
                  end
              end
          end
      end
  | Throw e, _, _ | _, Throw e, _ | _, _, Throw e => (Throw e, g)
  end.

Definition lifecycle_names : list string :=
  ["__create__"; "__createNamed__"; "__getNamed__"; "__delete__"; "__callAll__"].

Definition is_lifecycle (method : string) : bool :=
  existsb (String.eqb method) lifecycle_names.

(** Modelled from the spec: the read-only views of the adapter and
    [unregisterEventListeners], which are in [VrpcAdapter.js] as well.  The
    life-cycle functions count among the static functions of every class:
    the agent subscribes to the static topic of each function listed, and
    the life-cycle calls arrive on such topics. *)
Definition availableClasses (g : registry) : list string := map fst (classes g).

Definition availableInstances (cls : string) (g : registry) : list string :=
  map fst (instances_of cls g).

Definition availableMemberFunctions (cls : string) (g : registry) : list string :=
  match lookup cls (classes g) with
  | Some c => map fst (memberFunctions c)
  | None => []
  end.

Definition availableStaticFunctions (cls : string) (g : registry) : list string :=
  match lookup cls (classes g) with
  | Some c => (map fst (staticFunctions c) ++ lifecycle_names)%list
  | None => []
  end.

Definition availableMetaData (cls : string) (g : registry) : value :=
  match lookup cls (classes g) with
  | Some c => metaData c
  | None => VUndefined
  end.

Definition unregisterEventListeners (clientId : value) (g : registry) : registry :=
  {| classes := classes g;
     instances :=
       map (fun e =>
              (fst e,
               {| object := object (snd e); className := className (snd e);
                  named := named (snd e);
                  subscriptions :=
                    filter (fun s => negb (same_value_zero clientId (fst (fst s))))
                           (subscriptions (snd e)) |}))
           (instances g);
     nextId := nextId g |}.

(** The envelope names a context that is neither a registered class nor an
    instance. *)
Definition unknown_context (context : string) (g : registry) : Prop :=
  lookup context (classes g) = None /\ lookup context (instances g) = None.

(** The context is known and has no function of this name: a class that has
    no such static function (and the name is not one of the life-cycle
    functions), or an instance of a class that has no such member
    function. *)
Definition unknown_function (context method : string) (g : registry) : Prop :=
  (exists c, lookup context (classes g) = Some c
             /\ is_lifecycle method = false
             /\ lookup method (staticFunctions c) = None)
  \/ (exists r c, lookup context (classes g) = None
                  /\ lookup context (instances g) = Some r
                  /\ lookup (className r) (classes g) = Some c
                  /\ lookup method (memberFunctions c) = None).

#[global] Instance model : VrpcAdapter registry := {
  _call := call;
  getAvailableClasses := availableClasses;
  getAvailableInstances := availableInstances;
  getAvailableMemberFunctions := availableMemberFunctions;
  getAvailableStaticFunctions := availableStaticFunctions;
  getAvailableMetaData := availableMetaData;
  _unregisterEventListeners := unregisterEventListeners
}.

End Adapter.

(** ** A test bench *)

Module Bench.

Import Adapter.

(** A class in the manner of the [TestClass] of the adapter tests. *)
Definition TestClass : ClassDescriptor :=
  {| constructors := fun _ args => (Returns (obj []), args, VUndefined);
     memberFunctions :=
       [("hasEntry", fun self args => (Returns (VBool false), args, self))];
     staticFunctions := [("crazy", fun self args => (Returns (VStr "who is crazy?"), args, self))];
     metaData := obj [] |}.

(** A class that counts in BigInt.  [sum(account)] returns one;
    [drain(account)] returns one as well and stores another in the account
    object it is given ([account.balance = 0n]). *)
Definition Ledger : ClassDescriptor :=
  {| constructors := fun _ args => (Returns (obj []), args, VUndefined);
     memberFunctions := [];
     staticFunctions :=
       [("sum", fun self args => (Returns (VBigInt "9007199254740993"), args, self));
        ("drain", fun self args =>
                    (Returns (VBigInt "9007199254740993"),
                     match args with
                     | account :: rest =>
                         match set_prop account "balance" (VBigInt "0") with
                         | OK account' => account' :: rest
                         | Throw _ => args
                         end
                     | [] => []
                     end,
                     self))];
     metaData := obj [] |}.

Definition registry0 : registry :=
  register "Ledger" Ledger
    (register "TestClass" TestClass {| classes := []; instances := []; nextId := 0 |}).

Definition options0 : options :=
  {| domain := Some "test.vrpc"; agent := Some "agent1";
     username := None; password := None; token := None;
     broker := Some "mqtt://broker:1883"; bestEffort := None; version := Some "3" |}.

(** The agent [new VrpcAgent(options0)], with no client yet. *)
Definition agent0 : VrpcAgent :=
  {| _username := None; _password := None; _token := None;
     _agent := "agent1"; _domain := "test.vrpc"; _broker := "mqtt://broker:1883";
     _qos := 1; _version := "3"; _isReconnect := false;
     _baseTopic := "test.vrpc/agent1";
     _unnamedInstances := []; _namedInstances := []; _client := None |}.

(** The same agent once [serve] has connected its client. *)
Definition serving0 : VrpcAgent := set_client (Some {| connected := true |}) agent0.

Definition world0 : world := {| this := serving0; adapter := registry0; hostname := "host" |}.

(** Handles the messages of [l] one after the other. *)
Fixpoint deliver (l : list (string * payload)) (w : world) : world * list event :=
  match l with
  | [] => (w, [])
  | (topic, data) :: rest =>
      let '(_, w1, t1) := _handleMessage topic data w in
      let '(w2, t2) := deliver rest w1 in
      (w2, (t1 ++ t2)%list)
  end.

(** The calls on the MQTT client among the events. *)
Definition mqtt_calls (t : list event) : list event :=
  filter (fun e => match e with
                   | Publish _ _ _ _ | Subscribe _ _ | Unsubscribe _ => true
                   | _ => false
                   end) t.

Definition client1 : string := "test.vrpc/host/c1".

Definition create_message : string * payload :=
  ("test.vrpc/agent1/TestClass/__static__/__create__",
   JSONText (obj [("data", obj []); ("sender", VStr client1); ("id", VStr "1")])).

Definition delete_message (instance : string) : string * payload :=
  ("test.vrpc/agent1/TestClass/__static__/__delete__",
   JSONText (obj [("data", obj [("_1", VStr instance)]); ("sender", VStr client1);
                  ("id", VStr "2")])).

Definition createNamed_message : string * payload :=
  ("test.vrpc/agent1/TestClass/__static__/__createNamed__",
   JSONText (obj [("data", obj [("_1", VStr "alice"); ("_2", VStr "nice");
                                ("_3", VNum "1")]);
                  ("sender", VStr client1); ("id", VStr "4")])).

(** A call of a function the instance does not have *)
Definition not_there_message (instance : string) : string * payload :=
  ("test.vrpc/agent1/TestClass/" ++ instance ++ "/not_there",
   JSONText (obj [("data", obj []); ("sender", VStr client1); ("id", VStr "3")])).

Definition ledger_message (func : string) : string * payload :=
  ("test.vrpc/agent1/Ledger/__static__/" ++ func,
   JSONText (obj [("data", obj [("_1", obj [])]); ("sender", VStr client1);
                  ("id", VStr "5")])).

Definition offline_message : string * payload :=
  (client1 ++ "/__clientInfo__", JSONText (obj [("status", VStr "offline")])).

End Bench.

(** ** Runs on the test bench *)

(** Two envelopes whose lookup fails: a context that does not exist, and a
    function that an existing instance does not have. *)
Definition wrong_context_envelope : value :=
  obj [("context", VStr "wrong"); ("method", VStr "not_there"); ("data", obj [])].

Definition wrong_function_envelope : value :=
  obj [("context", VStr "instance-0"); ("method", VStr "not_there"); ("data", obj [])].

Definition world_created : world :=
  fst (Bench.deliver [Bench.create_message] Bench.world0).

Definition world_alice : world :=
  fst (Bench.deliver [Bench.createNamed_message] Bench.world0).



(** An envelope that has no [data]: the adapter has nowhere to place
    [data.e], and its call throws. *)
Definition no_data_props : list (string * value) :=
  [("sender", VStr "test.vrpc/host/c1"); ("id", VStr "3")].






Definition sum_props : list (string * value) :=
  [("data", obj [("_1", obj [])]); ("sender", VStr "test.vrpc/host/c1");
   ("id", VStr "5")].

(** The envelope the adapter hands back for the call of [sum]. *)
Definition sum_reply : value :=
  obj [("data", obj [("_1", obj []); ("r", VBigInt "9007199254740993")]);
       ("sender", VStr "test.vrpc/host/c1"); ("id", VStr "5");
       ("context", VStr "Ledger"); ("method", VStr "sum")].




(** The client deletes its anonymous instance. *)
Definition delete_anonymous_props : list (string * value) :=
  [("data", obj [("_1", VStr "instance-0")]); ("sender", VStr "test.vrpc/host/c1");
   ("id", VStr "2")].

Definition delete_anonymous_reply : value :=
  obj [("data", obj [("_1", VStr "instance-0"); ("r", VBool true)]);
       ("sender", VStr "test.vrpc/host/c1"); ("id", VStr "2");
       ("context", VStr "TestClass"); ("method", VStr "__delete__")].




(** A client whose identifier is what [_handleClientInfoMessage] cuts the
    topic [test.vrpc/host/c1/__clientInfo__] down to creates two anonymous
    instances. *)
Definition create_message_of (sender id : string) : string * payload :=
  ("test.vrpc/agent1/TestClass/__static__/__create__",
   JSONText (obj [("data", obj []); ("sender", VStr sender); ("id", VStr id)])).

Definition world_two_instances : world :=
  fst (Bench.deliver
         [create_message_of "test.vrpc/host/c1/__cli" "1";
          create_message_of "test.vrpc/host/c1/__cli" "2"]
         Bench.world0).

(** * The vocabulary of the statements *)

Definition forbidden (c : ascii) : Prop := In c ["+"; "/"; "#"; "*"]%char.

(** The key is left out or holds the empty string. *)
Definition missing (s : option string) : Prop := s = None \/ s = Some EmptyString.

Definition contains_forbidden (s : option string) : Prop :=
  exists x c, s = Some x /\ In c (list_ascii_of_string x) /\ forbidden c.

Definition refused (s : option string) : Prop := missing s \/ contains_forbidden s.

(** The publications among the events, and those that are not retained:
    the agent publishes a reply without the retain flag, and agent info and
    class info with it. *)
Definition publications (t : list event) : list event :=
  filter (fun e => match e with Publish _ _ _ _ => true | _ => false end) t.

Definition replies (t : list event) : list event :=
  filter (fun e => match e with Publish _ _ _ false => true | _ => false end) t.

(** [data] can be destructured: it is neither [undefined] nor [null]. *)
Definition readable (data : value) : Prop := forall k, exists v, get_prop data k = OK v.

(** What the loop of [_unregisterInstance] comes to: the instance is taken
    out of every set that holds it, no entry is deleted and nothing is
    unsubscribed, since [v.length === 0] compares [undefined] with [0]. *)
Definition without_instance (instanceId : value) (entries : JSMap) : JSMap :=
  map (fun e => (fst e, if Set_has (snd e) instanceId
                        then Set_delete (snd e) instanceId else snd e)) entries.


Definition prop_of (props : list (string * value)) (k : string) : value :=
  match assoc k props with Some v => v | None => VUndefined end.

(** The envelope as [_handleMessage] prepares it for the adapter. *)
Definition rpc_request (arr : bool) (props : list (string * value))
    (className instance method : string) : value :=
  VObj arr
    (assoc_set "method" (VStr method)
       (assoc_set "context"
          (VStr (if String.eqb instance "__static__" then className else instance))
          props)).

(** [json.data.r = '__vrpc::not-serializable__'] *)
Definition replace_r (json : value) : value :=
  match json with
  | VObj a props =>
      match assoc "data" props with
      | Some (VObj da dprops) =>
          VObj a (assoc_set "data"
                    (VObj da (assoc_set "r" (VStr not_serializable) dprops)) props)
      | _ => json
      end
  | _ => json
  end.

(** The envelope that is published: the one the adapter handed back if it
    can be serialized, else that one with [data.r] replaced. *)
Definition reply_envelope (json : value) : value :=
  if serializable json then json else replace_r json.

Section Vocabulary.

Context {A : Type} {adapterOps : VrpcAdapter A}.

Local Abbreviation M := (@M A).
Local Abbreviation world := (@world A).

Definition agentInfo (status : string) (w : world) : payload :=
  JSONText (obj [("status", VStr status);
                 ("hostname", VStr (hostname w));
                 ("version", VStr (_version (this w)))]).

(** What the tracker leaves alone: the adapter, the host name, and every
    field of the agent but the two maps. *)
Definition steady (w w' : world) : Prop :=
  adapter w' = adapter w /\ hostname w' = hostname w
  /\ _client (this w') = _client (this w)
  /\ _baseTopic (this w') = _baseTopic (this w)
  /\ _qos (this w') = _qos (this w)
  /\ _version (this w') = _version (this w).

(** A computation that, on an agent that holds a client, returns, leaves
    the world steady and publishes nothing. *)
Definition tracker_op {X : Type} (m : M X) : Prop :=
  forall w, _client (this w) <> None ->
    exists x w' t, m w = (OK x, w', t) /\ steady w w' /\ publications t = [].

(** A tracker operation whose result is known. *)
Definition tracker_ret {X : Type} (m : M X) (x : X) : Prop :=
  forall w, _client (this w) <> None ->
    exists w' t, m w = (OK x, w', t) /\ steady w w' /\ publications t = [].

Definition classInfo (className : string) (ad : A) : value :=
  obj [("className", VStr className);
       ("instances", array_of_strings (getAvailableInstances className ad));
       ("memberFunctions", array_of_strings (getAvailableMemberFunctions className ad));
       ("staticFunctions", array_of_strings (getAvailableStaticFunctions className ad));
       ("meta", getAvailableMetaData className ad)].

Definition classInfo_events (className : string) (w : world) : list event :=
  if serializable (classInfo className (adapter w)) then
    [Publish (VStr (classInfo_topic (this w) className))
             (JSONText (classInfo className (adapter w)))
             (_qos (this w)) true]
  else
    [Log error ("Problem during publishing class info: "
                ++ "Do not know how to serialize a BigInt")].

Definition with_adapter (ad : A) (w : world) : world :=
  {| this := this w; adapter := ad; hostname := hostname w |}.

End Vocabulary.

(** ** More vocabulary *)

(** The envelopes of the adapter calls among the events. *)
Definition adapter_calls (t : list event) : list value :=
  flat_map (fun e => match e with AdapterCall json => [json] | _ => [] end) t.

(** The topics subscribed to and unsubscribed from, in order. *)
Definition subscribed (t : list event) : list string :=
  flat_map (fun e => match e with Subscribe topics _ => topics | _ => [] end) t.

Definition unsubscribed (t : list event) : list string :=
  flat_map (fun e => match e with Unsubscribe topic => [topic] | _ => [] end) t.

(** The envelope [_handleClientInfoMessage] makes up to delete an instance. *)
Definition delete_envelope (instanceId : value) : value :=
  obj [("data", obj [("_1", instanceId)]); ("method", VStr "__delete__")].

(** A value that a [Map] or [Set] finds again: anything but an object. *)
Definition primitive (v : value) : Prop := same_value_zero v v = true.

(** What [_registerUnnamedInstance] and [_registerNamedInstance] come to on
    an agent that holds a client. *)
Definition registered (m : JSMap) (instanceId clientId : value) : JSMap :=
  match Map_get m clientId with
  | Some entry => Map_set m clientId (Set_add entry instanceId)
  | None => Map_set m clientId [instanceId]
  end.

(** The topics of the retained messages among the events, and the topics
    whose retained message is cleared by publishing an empty one. *)
Definition retained_topics (t : list event) : list value :=
  flat_map (fun e => match e with
                     | Publish topic (JSONText _) _ true => [topic]
                     | _ => []
                     end) t.

Definition cleared_topics (t : list event) : list value :=
  flat_map (fun e => match e with
                     | Publish topic NoPayload _ true => [topic]
                     | _ => []
                     end) t.

Definition no_slash (s : string) : Prop := ~ In "/"%char (list_ascii_of_string s).

Section MoreVocabulary.

Context {A : Type} {adapterOps : VrpcAdapter A}.

Local Abbreviation M := (@M A).
Local Abbreviation world := (@world A).

Local Notation "x <- m ;; k" := (bind m (fun x => k))
  (at level 61, m at next level, right associativity) : js_scope.
Local Notation "m ;; k" := (bind m (fun _ => k))
  (at level 61, right associativity) : js_scope.
Local Open Scope js_scope.

(** A computation that leaves the agent object alone. *)
Definition keeps_this {X : Type} (m : M X) : Prop :=
  forall w : world, this (world_of (m w)) = this w.

(** The step of the [forEach] in [_handleClientInfoMessage]. *)
Definition offline_step (instanceId : value) : M unit :=
  json <- adapter_call (delete_envelope instanceId) ;;
  data <- lift (get_prop json "data") ;;
  r <- lift (get_prop data "r") ;;
  if truthy r
  then log debug ("Deleted unnamed instance: " ++ template_str instanceId)
  else ret tt.

End MoreVocabulary.

(** * Properties *)

Example constructor_options0 : constructor Bench.options0 = OK Bench.agent0.
Proof. reflexivity. Qed.

(** The calls of the adapter tests of the repository, on the model: a named
    instance is created and deleted again, and a member function is called
    on an anonymous instance. *)
Example adapter_createNamed_delete :
  let '(r1, g1) :=
    Adapter.call (obj [("context", VStr "TestClass"); ("method", VStr "__createNamed__");
                       ("data", obj [("_1", VStr "testClass"); ("_2", VStr "nice");
                                     ("_3", VNum "1")])]) Bench.registry0 in
  let '(r2, g2) :=
    Adapter.call (obj [("context", VStr "TestClass"); ("method", VStr "__delete__");
                       ("data", obj [("_1", VStr "testClass")])]) g1 in
  r1 = OK (obj [("context", VStr "TestClass"); ("method", VStr "__createNamed__");
                ("data", obj [("_1", VStr "testClass"); ("_2", VStr "nice");
                              ("_3", VNum "1"); ("r", VStr "testClass")])])
  /\ Adapter.availableInstances "TestClass" g1 = ["testClass"]
  /\ r2 = OK (obj [("context", VStr "TestClass"); ("method", VStr "__delete__");
                   ("data", obj [("_1", VStr "testClass"); ("r", VBool true)])])
  /\ Adapter.availableInstances "TestClass" g2 = [].
Proof. vm_compute. repeat split. Qed.

Example adapter_member_call :
  fst (Adapter.call (obj [("context", VStr "instance-0"); ("method", VStr "hasEntry");
                          ("data", obj [("_1", VStr "test")])]) (adapter world_created))
  = OK (obj [("context", VStr "instance-0"); ("method", VStr "hasEntry");
             ("data", obj [("_1", VStr "test"); ("r", VBool false)])]).
Proof. reflexivity. Qed.

(** On its first connect the agent of the bench subscribes to the static
    topics, those of the life-cycle functions among them. *)
Example first_connect_subscriptions :
  Bench.mqtt_calls (events_of (_handleConnect Bench.world0))
  = [Subscribe
       ["test.vrpc/agent1/TestClass/__static__/crazy";
        "test.vrpc/agent1/TestClass/__static__/__create__";
        "test.vrpc/agent1/TestClass/__static__/__createNamed__";
        "test.vrpc/agent1/TestClass/__static__/__getNamed__";
        "test.vrpc/agent1/TestClass/__static__/__delete__";
        "test.vrpc/agent1/TestClass/__static__/__callAll__";
        "test.vrpc/agent1/Ledger/__static__/sum";
        "test.vrpc/agent1/Ledger/__static__/drain";
        "test.vrpc/agent1/Ledger/__static__/__create__";
        "test.vrpc/agent1/Ledger/__static__/__createNamed__";
        "test.vrpc/agent1/Ledger/__static__/__getNamed__";
        "test.vrpc/agent1/Ledger/__static__/__delete__";
        "test.vrpc/agent1/Ledger/__static__/__callAll__"] 1;
     Publish (VStr "test.vrpc/agent1/__agentInfo__") (agentInfo "online" Bench.world0) 1 true;
     Publish (VStr "test.vrpc/agent1/TestClass/__classInfo__")
             (JSONText (classInfo "TestClass" Bench.registry0)) 1 true;
     Publish (VStr "test.vrpc/agent1/Ledger/__classInfo__")
             (JSONText (classInfo "Ledger" Bench.registry0)) 1 true].
Proof. vm_compute. reflexivity. Qed.

Example create_then_world :
  let '(w, t) := Bench.deliver [Bench.create_message] Bench.world0 in
  Bench.mqtt_calls t =
    [Subscribe ["test.vrpc/agent1/TestClass/instance-0/+"] 1;
     Subscribe ["test.vrpc/host/c1/__clientInfo__"] 1;
     Publish (VStr "test.vrpc/host/c1")
       (JSONText (obj [("data", obj [("r", VStr "instance-0")]);
                       ("sender", VStr "test.vrpc/host/c1"); ("id", VStr "1");
                       ("context", VStr "TestClass"); ("method", VStr "__create__")]))
       1 false]
  /\ _unnamedInstances (this w) = [(VStr "test.vrpc/host/c1", [VStr "instance-0"])].
Proof. vm_compute. split; reflexivity. Qed.

(** ** Construction *)

Lemma matches_forbidden_spec (x : string) :
  matches_forbidden x = true <-> exists c, In c (list_ascii_of_string x) /\ forbidden c.
Proof.
  unfold matches_forbidden, forbidden. rewrite existsb_exists.
  split; intros [c [Hin Hc]]; exists c; split; trivial.
  - apply existsb_exists in Hc. destruct Hc as [c' [Hin' Heq]].
    apply Ascii.eqb_eq in Heq. now subst.
  - apply existsb_exists. exists c. split; trivial. apply Ascii.eqb_refl.
Qed.

Lemma _validateDomain_throws (d : option string) :
  (exists e, _validateDomain d = Throw e) <-> refused d.
Proof.
  unfold refused, missing, contains_forbidden, _validateDomain, falsy_string, default.
  destruct d as [x|].
  - destruct (String.eqb_spec x EmptyString) as [->|Hne].
    + split; [intros _; left; now right | intros _; eauto].
    + destruct (matches_forbidden x) eqn:Hm.
      * split; [intros _ | eauto]. right.
        apply matches_forbidden_spec in Hm. destruct Hm as [c [? ?]].
        exists x, c. auto.
      * split; [intros [e He]; discriminate |].
        intros [[H|H] | [y [c [H [Hin Hc]]]]]; try discriminate.
        -- injection H as ->. now contradict Hne.
        -- injection H as <-.
           assert (matches_forbidden x = true) by (apply matches_forbidden_spec; eauto).
           congruence.
  - split; [intros _; left; now left | eauto].
Qed.

Lemma _validateAgent_throws (a : option string) :
  (exists e, _validateAgent a = Throw e) <-> refused a.
Proof.
  unfold refused, missing, contains_forbidden, _validateAgent, falsy_string, default.
  destruct a as [x|].
  - destruct (String.eqb_spec x EmptyString) as [->|Hne].
    + split; [intros _; left; now right | intros _; eauto].
    + destruct (matches_forbidden x) eqn:Hm.
      * split; [intros _ | eauto]. right.
        apply matches_forbidden_spec in Hm. destruct Hm as [c [? ?]].
        exists x, c. auto.
      * split; [intros [e He]; discriminate |].
        intros [[H|H] | [y [c [H [Hin Hc]]]]]; try discriminate.
        -- injection H as ->. now contradict Hne.
        -- injection H as <-.
           assert (matches_forbidden x = true) by (apply matches_forbidden_spec; eauto).
           congruence.
  - split; [intros _; left; now left | eauto].
Qed.

(** C9.  The constructor throws exactly when the domain is missing or holds
    one of the characters + / # *, or the agent name is missing or holds one
    of them; in every other case it returns the agent object. *)
Theorem constructor_throws_iff (o : options) :
  ((exists e, constructor o = Throw e) <-> (refused (domain o) \/ refused (agent o)))
  /\ ((exists a, constructor o = OK a) <-> ~ (refused (domain o) \/ refused (agent o))).
Proof.
  pose proof (_validateDomain_throws (domain o)) as Hd.
  pose proof (_validateAgent_throws (agent o)) as Ha.
  unfold constructor.
  destruct (_validateDomain (domain o)) as [[]|ed].
  - destruct (_validateAgent (agent o)) as [[]|ea].
    + assert (Hnd : ~ refused (domain o)) by (intros H; apply Hd in H; destruct H; discriminate).
      assert (Hna : ~ refused (agent o)) by (intros H; apply Ha in H; destruct H; discriminate).
      split; split.
      * intros [e He]. discriminate.
      * intros [H|H]; contradiction.
      * intros _ [H|H]; contradiction.
      * intros _. eauto.
    + assert (Hra : refused (agent o)) by (apply Ha; eauto).
      split; split; eauto.
      * intros [a H]. discriminate.
      * intros H. exfalso. apply H. now right.
  - assert (Hrd : refused (domain o)) by (apply Hd; eauto).
    split; split; eauto.
    + intros [a H]. discriminate.
    + intros H. exfalso. apply H. now left.
Qed.

(** ** Stopping without a connection *)

Section Handlers.

Context {A : Type} {adapterOps : VrpcAdapter A}.

(** C10.  When [end] runs while the agent holds no client, or a client that
    is not connected, it emits the event end and does nothing else: nothing
    is published, whatever [unregister] is, and the agent is left as it
    was. *)
Theorem end_without_connection (unregister : bool) (w : world) :
  (_client (this w) = None
   \/ exists c, _client (this w) = Some c /\ connected c = false) ->
  end_ unregister w = (OK tt, w, [Emit "end"]).
Proof.
  intros H. unfold end_, try_catch, bind, get_this.
  destruct H as [H | [c [H Hc]]]; rewrite H; [| rewrite Hc]; reflexivity.
Qed.

(** ** Reconnecting *)

(** C7.  After the reconnect handler has run on an agent that holds a
    client, the flag is set, and the connect handler that follows logs,
    publishes the retained online agent-info message, emits connect and
    clears the flag: it subscribes to nothing and publishes no class info,
    and the agent is otherwise as before. *)
Theorem connect_after_reconnect (w : world) (c : MqttClient) :
  _client (this w) = Some c ->
  let w1 := world_of (_handleReconnect w) in
  _isReconnect (this w1) = true
  /\ _handleConnect w1 =
       (OK tt,
        {| this := set_isReconnect false (this w);
           adapter := adapter w; hostname := hostname w |},
        [Log info "[OK]";
         Publish (VStr (_baseTopic (this w) ++ "/__agentInfo__"))
                 (agentInfo "online" w) (_qos (this w)) true;
         Emit "connect"]).
Proof.
  intros Hc. cbn. split; [reflexivity |].
  unfold _handleConnect, bind at 1. cbn.
  unfold _mqttPublish, bind, get_this. cbn. rewrite Hc. reflexivity.
Qed.

End Handlers.

(** [end] with [unregister] set on the agent of the bench before [serve]. *)
Lemma end_without_connection_witness :
  end_ true {| this := Bench.agent0; adapter := Bench.registry0; hostname := "host" |}
  = (OK tt, {| this := Bench.agent0; adapter := Bench.registry0; hostname := "host" |},
     [Emit "end"]).
Proof.
  apply (end_without_connection true). left. reflexivity.
Defined.

(** A reconnect and the connect after it on the serving agent of the bench. *)
Lemma connect_after_reconnect_witness :
  let w1 := world_of (_handleReconnect Bench.world0) in
  _isReconnect (this w1) = true
  /\ _handleConnect w1 =
       (OK tt, Bench.world0,
        [Log info "[OK]";
         Publish (VStr "test.vrpc/agent1/__agentInfo__")
                 (agentInfo "online" Bench.world0) 1 true;
         Emit "connect"]).
Proof.
  exact (connect_after_reconnect Bench.world0 {| connected := true |} eq_refl).
Defined.

(** * Reasoning about runs *)

Section Runs.

Context {A : Type} {adapterOps : VrpcAdapter A}.

Local Abbreviation M := (@M A).
Local Abbreviation world := (@world A).
Local Abbreviation tracker_op := (@tracker_op A _).
Local Abbreviation tracker_ret := (@tracker_ret A _).

Local Open Scope js_scope.
Local Notation "x <- m ;; k" := (bind m (fun x => k))
  (at level 61, m at next level, right associativity) : js_scope.
Local Notation "m ;; k" := (bind m (fun _ => k))
  (at level 61, right associativity) : js_scope.

Lemma bind_ok {X Y : Type} (m : M X) (f : X -> M Y) w x w1 t1 r w2 t2 :
  m w = (OK x, w1, t1) -> f x w1 = (r, w2, t2) ->
  bind m f w = (r, w2, (t1 ++ t2)%list).
Proof. intros Hm Hf. unfold bind. now rewrite Hm, Hf. Qed.

Lemma bind_throw {X Y : Type} (m : M X) (f : X -> M Y) w e w1 t1 :
  m w = (Throw e, w1, t1) -> bind m f w = (Throw e, w1, t1).
Proof. intros Hm. unfold bind. now rewrite Hm. Qed.

Lemma try_catch_ok {X : Type} (m : M X) h w x w1 t1 :
  m w = (OK x, w1, t1) -> try_catch m h w = (OK x, w1, t1).
Proof. intros Hm. unfold try_catch. now rewrite Hm. Qed.

Lemma try_catch_throw {X : Type} (m : M X) h w e w1 t1 r w2 t2 :
  m w = (Throw e, w1, t1) -> h e w1 = (r, w2, t2) ->
  try_catch m h w = (r, w2, (t1 ++ t2)%list).
Proof. intros Hm Hh. unfold try_catch. now rewrite Hm, Hh. Qed.

Lemma publications_app t1 t2 :
  publications (t1 ++ t2) = (publications t1 ++ publications t2)%list.
Proof. apply filter_app. Qed.

Lemma replies_app t1 t2 : replies (t1 ++ t2) = (replies t1 ++ replies t2)%list.
Proof. apply filter_app. Qed.

Lemma replies_of_no_publications t : publications t = [] -> replies t = [].
Proof.
  induction t as [|e t IH]; trivial.
  destruct e; cbn; auto; discriminate.
Qed.

Lemma steady_refl (w : world) : steady w w.
Proof. repeat split. Qed.

Lemma steady_trans (w1 w2 w3 : world) :
  steady w1 w2 -> steady w2 w3 -> steady w1 w3.
Proof.
  unfold steady. intros (?&?&?&?&?&?) (?&?&?&?&?&?). repeat split; congruence.
Qed.

Lemma tracker_op_ret {X : Type} (x : X) : tracker_op (ret x).
Proof. intros w _. exists x, w, []. auto using steady_refl. Qed.

Lemma tracker_op_bind {X Y : Type} (m : M X) (f : X -> M Y) :
  tracker_op m -> (forall x, tracker_op (f x)) -> tracker_op (bind m f).
Proof.
  intros Hm Hf w Hc.
  destruct (Hm w Hc) as (x & w1 & t1 & Em & S1 & P1).
  assert (Hc1 : _client (this w1) <> None).
  { destruct S1 as (_&_&E&_). now rewrite E. }
  destruct (Hf x w1 Hc1) as (y & w2 & t2 & Ef & S2 & P2).
  exists y, w2, (t1 ++ t2)%list. split; [now apply bind_ok with x w1 |].
  split; [eauto using steady_trans |].
  now rewrite publications_app, P1, P2.
Qed.

Lemma tracker_op_get_this : tracker_op get_this.
Proof. intros w _. exists (this w), w, []. auto using steady_refl. Qed.

Lemma tracker_op_log lvl text : tracker_op (log lvl text).
Proof. intros w _. exists tt, w, [Log lvl text]. auto using steady_refl. Qed.

Lemma tracker_op_lift {X : Type} (x : X) : tracker_op (lift (OK x)).
Proof. intros w _. exists x, w, []. auto using steady_refl. Qed.

Lemma tracker_op_set_unnamedInstances (f : VrpcAgent -> JSMap) :
  tracker_op (modify_this (fun a => set_unnamedInstances (f a) a)).
Proof. intros w _. eexists tt, _, []. split; [reflexivity |]. repeat split. Qed.

Lemma tracker_op_set_namedInstances (f : VrpcAgent -> JSMap) :
  tracker_op (modify_this (fun a => set_namedInstances (f a) a)).
Proof. intros w _. eexists tt, _, []. split; [reflexivity |]. repeat split. Qed.

Lemma tracker_op_mqttSubscribe topics : tracker_op (_mqttSubscribe topics).
Proof.
  intros w Hc. unfold _mqttSubscribe, bind, get_this, tell.
  destruct (_client (this w)) as [c|]; [| contradiction].
  eexists tt, w, _. split; [reflexivity |]. auto using steady_refl.
Qed.

Lemma tracker_op_mqttUnsubscribe topic : tracker_op (_mqttUnsubscribe topic).
Proof.
  intros w Hc. unfold _mqttUnsubscribe, bind, get_this, tell.
  destruct (_client (this w)) as [c|]; [| contradiction].
  eexists tt, w, _. split; [reflexivity |]. auto using steady_refl.
Qed.

Lemma tracker_op_if {X : Type} (b : bool) (m1 m2 : M X) :
  tracker_op m1 -> tracker_op m2 -> tracker_op (if b then m1 else m2).
Proof. now destruct b. Qed.

Create HintDb tracker.
Hint Resolve tracker_op_ret tracker_op_get_this tracker_op_log tracker_op_lift
  tracker_op_mqttSubscribe tracker_op_mqttUnsubscribe tracker_op_if : tracker.

Lemma tracker_op_bind_lift {X Y : Type} (r : result X) (x : X) (f : X -> M Y) :
  r = OK x -> tracker_op (f x) -> tracker_op (bind (lift r) f).
Proof.
  intros -> Hf w Hc. destruct (Hf w Hc) as (y & w' & t & E & S & P).
  exists y, w', t. split; [| auto]. unfold bind, lift. now rewrite E.
Qed.

Ltac tracker_steps :=
  repeat first
    [ solve [ auto with tracker ]
    | apply (tracker_op_set_unnamedInstances (fun _ => _))
    | apply (tracker_op_set_namedInstances (fun _ => _))
    | apply tracker_op_if
    | eapply tracker_op_bind_lift; [ eassumption | cbv beta ]
    | apply tracker_op_bind; [| intros ? ] ].

Lemma tracker_op_registerUnnamedInstance instanceId clientId :
  tracker_op (_registerUnnamedInstance instanceId clientId).
Proof.
  unfold _registerUnnamedInstance.
  apply tracker_op_bind; [auto with tracker | intros a].
  destruct (Map_get (_unnamedInstances a) clientId); tracker_steps.
Qed.
Hint Resolve tracker_op_registerUnnamedInstance : tracker.

Lemma tracker_op_registerNamedInstance instanceId clientId :
  tracker_op (_registerNamedInstance instanceId clientId).
Proof.
  unfold _registerNamedInstance.
  apply tracker_op_bind; [auto with tracker | intros a].
  destruct (Map_get (_namedInstances a) clientId); tracker_steps.
Qed.
Hint Resolve tracker_op_registerNamedInstance : tracker.

Lemma tracker_op_hasNamedInstance instanceId :
  tracker_op (_hasNamedInstance instanceId).
Proof. unfold _hasNamedInstance. tracker_steps. Qed.
Hint Resolve tracker_op_hasNamedInstance : tracker.

Lemma tracker_op_subscribeToMethodsOfNewInstance className instance :
  tracker_op (_subscribeToMethodsOfNewInstance className instance).
Proof. unfold _subscribeToMethodsOfNewInstance. tracker_steps. Qed.
Hint Resolve tracker_op_subscribeToMethodsOfNewInstance : tracker.

Lemma tracker_op_unsubscribeMethodsOfDeletedInstance className instance :
  tracker_op (_unsubscribeMethodsOfDeletedInstance className instance).
Proof. unfold _unsubscribeMethodsOfDeletedInstance. tracker_steps. Qed.
Hint Resolve tracker_op_unsubscribeMethodsOfDeletedInstance : tracker.

Lemma _unregisterInstance_forEach_run instanceId clientId entries found (w : world) :
  _unregisterInstance_forEach instanceId clientId entries found false w
  = (OK (without_instance instanceId entries,
         found || existsb (fun e => Set_has (snd e) instanceId) entries,
         false), w, []).
Proof.
  revert found. induction entries as [|[k v] rest IH]; intros found.
  - cbn. now rewrite orb_false_r.
  - cbn [_unregisterInstance_forEach andb]. cbn [without_instance map fst snd existsb].
    destruct (Set_has v instanceId) eqn:Hh.
    + cbn [Set_length strict_eq]. unfold bind. rewrite IH.
      cbn. now rewrite orb_true_r.
    + unfold bind. rewrite IH. cbn. reflexivity.
Qed.

Lemma tracker_op_unregisterInstance_forEach instanceId clientId entries found :
  tracker_op (_unregisterInstance_forEach instanceId clientId entries found false).
Proof.
  intros w _. rewrite _unregisterInstance_forEach_run.
  eexists _, w, []. auto using steady_refl.
Qed.

Lemma tracker_op_unregisterInstance instanceId clientId :
  tracker_op (_unregisterInstance instanceId clientId).
Proof.
  unfold _unregisterInstance.
  apply tracker_op_bind; [auto with tracker | intros a].
  assert (Hnamed : tracker_op
    (r <- _unregisterInstance_forEach instanceId clientId (_namedInstances a) false false ;;
     (let '(m, found, gone) := r in
      modify_this (set_namedInstances (if gone then Map_delete m clientId else m)) ;;
      (if negb found
       then log warn ("Failed un-registering not registered instance: "
                      ++ template_str instanceId) ;; ret false
       else ret true)))).
  { apply tracker_op_bind; [apply tracker_op_unregisterInstance_forEach |].
    intros [[m found] gone]. tracker_steps. }
  destruct (Map_get (_unnamedInstances a) clientId) as [entry|]; [| exact Hnamed].
  destruct (Set_has entry instanceId); [| exact Hnamed].
  cbn [Set_length strict_eq]. tracker_steps.
Qed.
Hint Resolve tracker_op_unregisterInstance : tracker.



Lemma tracker_ret_op {X : Type} (m : M X) (x : X) : tracker_ret m x -> tracker_op m.
Proof. intros H w Hc. destruct (H w Hc) as (w' & t & ?). now exists x, w', t. Qed.

Lemma readable_object a props : readable (VObj a props).
Proof. intros k. cbn. destruct (assoc k props); eauto. Qed.

Lemma get_prop_object json k a props :
  get_prop json k = OK (VObj a props) -> exists a' props', json = VObj a' props'.
Proof. destruct json; cbn; try discriminate; eauto. Qed.

(** The [switch] of [_handleMessage] is a tracker operation as soon as the
    envelope the adapter hands back has a [data] that can be destructured. *)
Lemma tracker_op_lifecycle className instance method json data sender :
  get_prop json "data" = OK data -> readable data ->
  get_prop json "sender" = OK sender ->
  tracker_op (lifecycle className instance method json).
Proof.
  intros Hd Hr Hs. unfold lifecycle.
  destruct (Hr "r") as [r Er]. destruct (Hr "_1") as [v1 E1]. destruct (Hr "e") as [e Ee].
  repeat match goal with
         | |- tracker_op (if ?b then _ else _) => destruct b
         end;
    tracker_steps.
Qed.


(** ** The run of [_handleMessage] on a message of the RPC protocol *)

Lemma _publishClassInfoMessage_run className (w : world) c :
  _client (this w) = Some c ->
  _publishClassInfoMessage className w = (OK tt, w, classInfo_events className w).
Proof.
  intros Hc. unfold _publishClassInfoMessage, classInfo_events.
  unfold _getInstances, _getMemberFunctions, _getStaticFunctions, _getMetaData.
  unfold bind at 1 2 3 4 5 6 7 8. cbn [get_adapter ret app].
  unfold try_catch, bind, get_this, lift, JSON_stringify, _mqttPublish, get_this.
  fold (classInfo className (adapter w)).
  destruct (serializable (classInfo className (adapter w))).
  - cbn. rewrite Hc. reflexivity.
  - reflexivity.
Qed.

Lemma replies_classInfo_events className w : replies (classInfo_events className w) = [].
Proof. unfold classInfo_events. now destruct (serializable _). Qed.

Lemma get_prop_obj a props k : get_prop (VObj a props) k = OK (prop_of props k).
Proof. unfold prop_of. cbn. now destruct (assoc k props). Qed.

Lemma stringify_reply_run json a props da dprops (w : world) :
  json = VObj a props -> assoc "data" props = Some (VObj da dprops) ->
  serializable (reply_envelope json) = true ->
  exists t,
    stringify_reply json w
    = (OK (JSONText (reply_envelope json), reply_envelope json), w, t)
    /\ publications t = []
    /\ (serializable json = true -> t = []).
Proof.
  intros -> Hd Hs. unfold reply_envelope in *.
  unfold stringify_reply, try_catch, bind at 1, lift at 1, JSON_stringify at 1.
  destruct (serializable (VObj a props)) eqn:E.
  - exists []. cbn. auto.
  - unfold replace_r in *. rewrite Hd in *.
    unfold bind, lift, log, tell, ret. rewrite !get_prop_obj.
    replace (prop_of props "data") with (VObj da dprops)
      by (unfold prop_of; now rewrite Hd).
    cbn [set_prop].
    unfold JSON_stringify. rewrite Hs.
    eexists. split; [reflexivity |]. split; [reflexivity | discriminate].
Qed.

Lemma assoc_set_other k k' v props :
  k <> k' -> assoc k (assoc_set k' v props) = assoc k props.
Proof.
  intros Hne. induction props as [|[k0 v0] rest IH]; cbn.
  - destruct (String.eqb_spec k k'); [contradiction | reflexivity].
  - destruct (String.eqb_spec k' k0) as [->|Hk0]; cbn.
    + destruct (String.eqb_spec k k0); [contradiction | reflexivity].
    + destruct (String.eqb_spec k k0); [reflexivity | exact IH].
Qed.

Lemma assoc_set_same k v props : assoc k (assoc_set k v props) = Some v.
Proof.
  induction props as [|[k0 v0] rest IH]; cbn.
  - now rewrite String.eqb_refl.
  - destruct (String.eqb_spec k k0) as [->|Hk0]; cbn.
    + now rewrite String.eqb_refl.
    + destruct (String.eqb_spec k k0); [contradiction | exact IH].
Qed.

Lemma prop_of_reply_envelope a props k :
  k <> "data" ->
  get_prop (reply_envelope (VObj a props)) k = OK (prop_of props k).
Proof.
  intros Hk. unfold reply_envelope, replace_r.
  destruct (serializable (VObj a props)); [apply get_prop_obj |].
  destruct (assoc "data" props) as [[]|]; try apply get_prop_obj.
  rewrite get_prop_obj. unfold prop_of. now rewrite assoc_set_other.
Qed.

Lemma cond_classInfo_run (b : bool) className (w : world) c :
  _client (this w) = Some c ->
  (if b then _publishClassInfoMessage className else ret tt) w
  = (OK tt, w, if b then classInfo_events className w else []).
Proof.
  intros Hc. destruct b; [now apply _publishClassInfoMessage_run with c | reflexivity].
Qed.

Lemma _handleMessage_run topic t0 t1 className instance method arr props
    (w : world) c json' ad' da dprops :
  _client (this w) = Some c ->
  split "/" topic = [t0; t1; className; instance; method] ->
  _call (rpc_request arr props className instance method) (adapter w) = (OK json', ad') ->
  get_prop json' "data" = OK (VObj da dprops) ->
  serializable (reply_envelope json') = true ->
  exists sender b w1 t_life t_ser,
    get_prop json' "sender" = OK sender
    /\ lifecycle className instance method json' (with_adapter ad' w) = (OK b, w1, t_life)
    /\ steady (with_adapter ad' w) w1
    /\ publications t_life = []
    /\ publications t_ser = []
    /\ (serializable json' = true -> t_ser = [])
    /\ _handleMessage topic (JSONText (VObj arr props)) w
       = (OK tt, w1,
          [Log debug ("Message arrived with topic: " ++ topic ++ " and payload:");
           AdapterCall (rpc_request arr props className instance method)]
          ++ t_life ++ t_ser
          ++ (if b && String.eqb method "__delete__"
              then classInfo_events className w1 else [])
          ++ [Publish sender (JSONText (reply_envelope json'))
                      (_qos (this w)) false]
          ++ (if b && String.eqb method "__createNamed__"
              then classInfo_events className w1 else []))%list.
Proof.
  intros Hc Htok Hcall Hd Hs.
  destruct (get_prop_object _ _ _ _ Hd) as (a' & props' & ->).
  assert (Hd' : assoc "data" props' = Some (VObj da dprops)).
  { cbn in Hd. destruct (assoc "data" props'); inversion Hd; reflexivity. }
  pose proof (get_prop_obj a' props' "sender") as Hsender.
  assert (Hcw : _client (this (with_adapter ad' w)) <> None) by (cbn; now rewrite Hc).
  destruct (tracker_op_lifecycle className instance method _ _ _
              Hd (readable_object _ _) Hsender (with_adapter ad' w) Hcw)
    as (b & w1 & tl & El & Sl & Pl).
  destruct (stringify_reply_run _ _ _ _ _ w1 eq_refl Hd' Hs) as (ts & Es & Ps & Pe).
  assert (Hc1 : _client (this w1) = Some c).
  { destruct Sl as (_&_&E&_). now rewrite E. }
  assert (Hq : _qos (this w1) = _qos (this w)).
  { now destruct Sl as (_&_&_&_&E&_). }
  exists (prop_of props' "sender"), b, w1, tl, ts.
  repeat (split; [assumption |]).
  match goal with
  | |- ?lhs = (OK tt, w1, ?D) =>
      assert (H : exists T, lhs = (OK tt, w1, T) /\ T = D);
        [| destruct H as (T & -> & ->); reflexivity]
  end.
  eexists. split.
  - unfold _handleMessage. apply try_catch_ok.
    eapply bind_ok; [reflexivity |]. cbv beta.
    eapply bind_ok; [reflexivity |]. cbv beta zeta.
    rewrite Htok. cbn [List.length Nat.eqb andb negb nth].
    cbn [set_prop]. eapply bind_ok; [reflexivity |]. cbv beta.
    cbn [set_prop]. eapply bind_ok; [reflexivity |]. cbv beta.
    eapply bind_ok.
    { unfold adapter_call. unfold rpc_request in Hcall. rewrite Hcall. reflexivity. }
    cbv beta. eapply bind_ok; [exact El |]. cbv beta.
    eapply bind_ok; [exact Es |]. cbv beta iota.
    eapply bind_ok; [apply cond_classInfo_run with c; exact Hc1 |]. cbv beta.
    rewrite prop_of_reply_envelope by discriminate.
    eapply bind_ok; [reflexivity |]. cbv beta.
    eapply bind_ok.
    { unfold _mqttPublish, bind, get_this. rewrite Hc1. reflexivity. }
    cbv beta. apply cond_classInfo_run with c; exact Hc1.
  - rewrite Hq. cbn [app]. reflexivity.
Qed.

(** ** What the [switch] answers for [__createNamed__] and [__delete__] *)



Lemma _unsubscribeMethodsOfDeletedInstance_run className instance (w : world) c :
  _client (this w) = Some c ->
  _unsubscribeMethodsOfDeletedInstance className instance w
  = (OK tt, w,
     [Unsubscribe (instance_topic (this w) className instance);
      Log debug ("Unsubscribed from topic after deletion: "
                 ++ instance_topic (this w) className instance)]).
Proof.
  intros Hc.
  unfold _unsubscribeMethodsOfDeletedInstance, _mqttUnsubscribe, bind, get_this, tell, log.
  rewrite Hc. reflexivity.
Qed.

Ltac run_to :=
  match goal with
  | |- ?lhs = (?r, ?w, ?D) =>
      let H := fresh in
      assert (H : exists T, lhs = (r, w, T) /\ T = D);
        [ eexists; split | destruct H as (? & -> & ->); reflexivity ]
  end.


(** ** Serialization of objects *)

Lemma serializable_object props :
  serializable (VObj false props) = forallb (fun p => serializable (snd p)) props.
Proof.
  induction props as [|[k x] rest IH]; [reflexivity |].
  cbn [forallb snd]. rewrite <- IH. reflexivity.
Qed.

Lemma serializable_assoc_set_value k v props :
  serializable (VObj false (assoc_set k v props)) = true -> serializable v = true.
Proof.
  rewrite serializable_object.
  induction props as [|[k0 x0] rest IH]; cbn.
  - now rewrite andb_true_r.
  - destruct (String.eqb k k0); cbn; intros H; apply andb_prop in H; tauto.
Qed.

Lemma serializable_assoc_set_back k v props :
  serializable (VObj false (assoc_set k v props)) = true ->
  (forall x, assoc k props = Some x -> serializable x = true) ->
  serializable (VObj false props) = true.
Proof.
  rewrite !serializable_object.
  induction props as [|[k0 x0] rest IH]; cbn; [reflexivity |].
  destruct (String.eqb k k0); cbn; intros H Hx; apply andb_prop in H; destruct H as [H1 H2].
  - rewrite H2, (Hx x0 eq_refl). reflexivity.
  - rewrite H1. cbn. now apply IH.
Qed.

(** When the envelope cannot be serialized but can once [data.r] is
    replaced, the text of the envelope would have carried [data.r]. *)
Lemma carries_r_of_replaced props dprops :
  assoc "data" props = Some (VObj false dprops) ->
  serializable (VObj false props) = false ->
  serializable (replace_r (VObj false props)) = true ->
  carries (VObj false props) "r" = true.
Proof.
  intros Hd Hn Hs. unfold replace_r in Hs. rewrite Hd in Hs.
  unfold carries, text_member. rewrite Hd.
  destruct (assoc "r" dprops) as [r|] eqn:Er.
  - destruct r; try reflexivity. exfalso.
    rewrite (serializable_assoc_set_back _ _ _ Hs) in Hn; [discriminate |].
    intros x Hx. rewrite Hd in Hx. injection Hx as <-.
    apply serializable_assoc_set_value in Hs.
    apply (serializable_assoc_set_back _ _ _ Hs).
    intros y Hy. rewrite Er in Hy. now injection Hy as <-.
  - exfalso.
    rewrite (serializable_assoc_set_back _ _ _ Hs) in Hn; [discriminate |].
    intros x Hx. rewrite Hd in Hx. injection Hx as <-.
    apply serializable_assoc_set_value in Hs.
    apply (serializable_assoc_set_back _ _ _ Hs).
    intros y Hy. rewrite Er in Hy. discriminate.
Qed.

Lemma carries_reply_envelope json da dprops :
  get_prop json "data" = OK (VObj da dprops) ->
  serializable (reply_envelope json) = true ->
  xorb (carries json "r") (carries json "e") = true ->
  xorb (carries (reply_envelope json) "r") (carries (reply_envelope json) "e") = true.
Proof.
  intros Hd Hs Hx. unfold reply_envelope in *.
  destruct (serializable json) eqn:E; [exact Hx |].
  destruct (get_prop_object _ _ _ _ Hd) as (a & props & ->).
  assert (Hd' : assoc "data" props = Some (VObj da dprops)).
  { cbn in Hd. destruct (assoc "data" props); inversion Hd; reflexivity. }
  destruct a; [discriminate Hx |].
  destruct da.
  { unfold carries, text_member in Hx. rewrite Hd' in Hx. discriminate Hx. }
  pose proof (carries_r_of_replaced _ _ Hd' E Hs) as Hr.
  rewrite Hr in Hx. cbn in Hx.
  unfold replace_r. rewrite Hd'.
  unfold carries, text_member in *. rewrite Hd' in Hx.
  rewrite assoc_set_same. rewrite assoc_set_same.
  rewrite assoc_set_other by discriminate.
  destruct (assoc "e" dprops) as [[]|]; try discriminate; reflexivity.
Qed.

(** ** Replies *)

Lemma replies_cons_other e t :
  match e with Publish _ _ _ false => False | _ => True end ->
  replies (e :: t) = replies t.
Proof. destruct e; cbn; try reflexivity. destruct retain; [reflexivity | contradiction]. Qed.

Lemma reply_when_adapter_returns_aux topic t0 t1 className instance method arr props
    (w : world) c :
  _client (this w) = Some c ->
  split "/" topic = [t0; t1; className; instance; method] ->
  (forall json' ad' da dprops,
      _call (rpc_request arr props className instance method) (adapter w) = (OK json', ad') ->
      get_prop json' "data" = OK (VObj da dprops) ->
      serializable (reply_envelope json') = true ->
      exists sender,
        get_prop json' "sender" = OK sender
        /\ outcome_of (_handleMessage topic (JSONText (VObj arr props)) w) = OK tt
        /\ replies (events_of (_handleMessage topic (JSONText (VObj arr props)) w))
           = [Publish sender (JSONText (reply_envelope json')) (_qos (this w)) false]
        /\ (xorb (carries json' "r") (carries json' "e") = true ->
            xorb (carries (reply_envelope json') "r")
                 (carries (reply_envelope json') "e") = true))
  /\ (forall e ad',
        _call (rpc_request arr props className instance method) (adapter w) = (Throw e, ad') ->
        publications (events_of (_handleMessage topic (JSONText (VObj arr props)) w)) = []).
Proof.
  intros Hc Htok. split.
  - intros json' ad' da dprops Hcall Hd Hs.
    destruct (_handleMessage_run _ _ _ _ _ _ _ _ _ _ _ _ _ _ Hc Htok Hcall Hd Hs)
      as (sender & b & w1 & tl & ts & Hsender & _ & _ & Pl & Ps & _ & Erun).
    exists sender. rewrite Erun. unfold outcome_of, events_of. cbn [fst snd].
    repeat split; trivial.
    + cbn [app]. rewrite !replies_cons_other by exact I.
      rewrite !replies_app.
      rewrite (replies_of_no_publications _ Pl), (replies_of_no_publications _ Ps).
      destruct (b && String.eqb method "__delete__");
        destruct (b && String.eqb method "__createNamed__");
        rewrite ?replies_classInfo_events; cbn; rewrite ?replies_classInfo_events;
        reflexivity.
    + now apply carries_reply_envelope with da dprops.
  - intros e ad' Hcall.
    assert (E : _handleMessage topic (JSONText (VObj arr props)) w
                = (OK tt, with_adapter ad' w,
                   [Log debug ("Message arrived with topic: " ++ topic ++ " and payload:");
                    AdapterCall (rpc_request arr props className instance method);
                    Log error ("Problem while handling incoming message: "
                               ++ err_message e)])).
    { unfold _handleMessage. run_to.
      - eapply try_catch_throw; [| reflexivity].
        eapply bind_ok; [reflexivity |]. cbv beta.
        eapply bind_ok; [reflexivity |]. cbv beta zeta.
        rewrite Htok. cbn [List.length Nat.eqb andb negb nth].
        cbn [set_prop]. eapply bind_ok; [reflexivity |]. cbv beta.
        cbn [set_prop]. eapply bind_ok; [reflexivity |]. cbv beta.
        eapply bind_throw.
        unfold adapter_call. unfold rpc_request in Hcall. rewrite Hcall. reflexivity.
      - reflexivity. }
    rewrite E. reflexivity.
Qed.


(** ** The order of reply and class info *)





(** ** A return value that cannot be serialized *)

(** C8, as the code has it.  When the envelope the adapter hands back cannot
    be serialized, [data.r] is replaced by [__vrpc::not-serializable__]; if
    the envelope can be serialized then, it is published to the sender as
    the one reply. *)
Theorem not_serializable_reply topic t0 t1 className instance method arr props
    (w : world) c json' ad' da dprops :
  _client (this w) = Some c ->
  split "/" topic = [t0; t1; className; instance; method] ->
  _call (rpc_request arr props className instance method) (adapter w) = (OK json', ad') ->
  get_prop json' "data" = OK (VObj da dprops) ->
  serializable json' = false ->
  serializable (replace_r json') = true ->
  exists sender data,
    get_prop json' "sender" = OK sender
    /\ get_prop (replace_r json') "data" = OK data
    /\ get_prop data "r" = OK (VStr "__vrpc::not-serializable__")
    /\ replies (events_of (_handleMessage topic (JSONText (VObj arr props)) w))
       = [Publish sender (JSONText (replace_r json')) (_qos (this w)) false].
Proof.
  intros Hc Htok Hcall Hd Hn Hs.
  assert (Er : reply_envelope json' = replace_r json').
  { unfold reply_envelope. now rewrite Hn. }
  assert (Hs' : serializable (reply_envelope json') = true) by now rewrite Er.
  destruct (proj1 (reply_when_adapter_returns_aux topic t0 t1 className instance method arr props w c Hc Htok)
              json' ad' da dprops Hcall Hd Hs') as (sender & Hsender & _ & Hr & _).
  destruct (get_prop_object _ _ _ _ Hd) as (a' & props' & ->).
  assert (Hd' : assoc "data" props' = Some (VObj da dprops)).
  { cbn in Hd. destruct (assoc "data" props'); inversion Hd; reflexivity. }
  exists sender, (VObj da (assoc_set "r" (VStr not_serializable) dprops)).
  split; [exact Hsender |]. rewrite <- Er. split; [| split].
  - rewrite Er. unfold replace_r. rewrite Hd'. rewrite get_prop_obj.
    unfold prop_of. now rewrite assoc_set_same.
  - rewrite get_prop_obj. unfold prop_of. now rewrite assoc_set_same.
  - exact Hr.
Qed.

(** ** The first connect, for comparison *)

Lemma forEach_publishClassInfoMessage classes (w : world) c :
  _client (this w) = Some c ->
  forEach classes _publishClassInfoMessage w
  = (OK tt, w, flat_map (fun className => classInfo_events className w) classes).
Proof.
  intros Hc. induction classes as [|className rest IH]; [reflexivity |].
  cbn [forEach flat_map]. apply bind_ok with tt w; [| exact IH].
  now apply _publishClassInfoMessage_run with c.
Qed.

(** Without the flag, the connect handler subscribes to the static topics,
    publishes the online agent info and then the class info of every class. *)
Lemma _handleConnect_first (w : world) c :
  _client (this w) = Some c -> _isReconnect (this w) = false ->
  let classes := getAvailableClasses (adapter w) in
  let topics :=
    flat_map (fun className =>
                map (fun func => _baseTopic (this w) ++ "/" ++ className
                                 ++ "/__static__/" ++ func)
                    (getAvailableStaticFunctions className (adapter w)))
             classes in
  _handleConnect w
  = (OK tt, w,
     [Log info "[OK]";
      if Nat.ltb 0 (List.length classes)
      then Log info ("Registering classes: " ++ join ", " classes)
      else Log warn "No classes are registered"]
     ++ (if Nat.ltb 0 (List.length topics)
         then [Subscribe topics (_qos (this w))] else [])
     ++ [Publish (VStr (_baseTopic (this w) ++ "/__agentInfo__"))
                 (agentInfo "online" w) (_qos (this w)) true]
     ++ flat_map (fun className => classInfo_events className w) classes
     ++ [Emit "connect"])%list.
Proof.
  intros Hc Hf classes topics. unfold _handleConnect. run_to.
  - eapply bind_ok; [reflexivity |]. cbv beta.
    eapply bind_ok; [reflexivity |]. cbv beta. rewrite Hf.
    eapply bind_ok.
    { apply try_catch_ok. eapply bind_ok.
      - unfold _generateTopics, _getClasses.
        eapply bind_ok; [reflexivity |]. cbv beta.
        eapply bind_ok.
        { instantiate (3 := tt). instantiate (2 := w).
          instantiate (1 := [if Nat.ltb 0 (List.length classes)
                             then Log info ("Registering classes: " ++ join ", " classes)
                             else Log warn "No classes are registered"]).
          fold classes. now destruct (Nat.ltb 0 (List.length classes)). }
        cbv beta. reflexivity.
      - cbv beta. cbn [app]. fold classes. fold topics.
        instantiate (3 := tt). instantiate (2 := w).
        instantiate (1 := if Nat.ltb 0 (List.length topics)
                          then [Subscribe topics (_qos (this w))] else []).
        destruct (Nat.ltb 0 (List.length topics)); [| reflexivity].
        unfold _mqttSubscribe, bind, get_this. rewrite Hc. reflexivity. }
    cbv beta. eapply bind_ok.
    { unfold _publishAgentInfoMessage, _mqttPublish, bind, get_this. cbn. rewrite Hc.
      reflexivity. }
    cbv beta. eapply bind_ok; [reflexivity |]. cbv beta.
    eapply bind_ok; [now apply forEach_publishClassInfoMessage with c |].
    reflexivity.
  - cbn [app]. reflexivity.
Qed.

(** ** The client of a client-info topic *)

Lemma append_assoc (s t u : string) : ((s ++ t) ++ u = s ++ (t ++ u))%string.
Proof. induction s as [|a s IH]; cbn; [reflexivity |]. now rewrite IH. Qed.

Lemma substring_0_app (s t : string) (n : nat) :
  substring 0 (String.length s + n) (s ++ t) = s ++ substring 0 n t.
Proof.
  induction s as [|a s IH]; cbn; [reflexivity |]. now rewrite IH.
Qed.

(** Cutting nine characters off a client-info topic leaves six characters
    of the suffix on the client. *)
Lemma slice_clientInfo_topic (clientId : string) :
  slice_0_minus 9 (clientId ++ "/__clientInfo__") = clientId ++ "/__cli".
Proof.
  unfold slice_0_minus.
  assert (E : String.length (clientId ++ "/__clientInfo__") - 9
              = String.length clientId + 6).
  { induction clientId as [|a s IH]; [reflexivity |].
    cbn [String.length append]. rewrite Nat.sub_succ_l, IH; [reflexivity |].
    clear. induction s as [|b s IH]; cbn; lia. }
  rewrite E. apply substring_0_app.
Qed.

(** The handler of an offline message on the topic of [clientId] works on
    [clientId/__cli]: unless that happens to be a tracked client, it calls
    the adapter for no [__delete__]. *)
Lemma _handleClientInfoMessage_offline (clientId : string) (w : world) c :
  _client (this w) = Some c ->
  Map_get (_unnamedInstances (this w)) (VStr (clientId ++ "/__cli")) = None ->
  _handleClientInfoMessage (clientId ++ "/__clientInfo__")
                           (obj [("status", VStr "offline")]) w
  = (OK tt,
     with_adapter (_unregisterEventListeners (VStr (clientId ++ "/__cli")) (adapter w)) w,
     [AdapterUnregisterEventListeners (VStr (clientId ++ "/__cli"));
      Unsubscribe (clientId ++ "/__cli/__clientInfo__")]).
Proof.
  intros Hc Hg. unfold _handleClientInfoMessage. rewrite slice_clientInfo_topic.
  run_to.
  - eapply bind_ok; [reflexivity |]. cbv beta.
    change (strict_eq (VStr "offline") (VStr "offline")) with true. cbv iota.
    eapply bind_ok; [reflexivity |]. cbv beta. rewrite Hg.
    eapply bind_ok; [reflexivity |]. cbv beta.
    eapply bind_ok; [reflexivity |]. cbv beta.
    unfold _mqttUnsubscribe, bind, get_this. cbn [this]. rewrite Hc. reflexivity.
  - cbn [app]. rewrite append_assoc. reflexivity.
Qed.

(** * Further properties of the handlers *)

Local Abbreviation keeps_this := (@keeps_this A _).

(** ** Messages that are not dispatched *)

(** X2.  A message whose topic has neither five levels nor four levels
    ending in [__clientInfo__] is ignored with a warning: the adapter is not
    called, nothing is published and the agent is left as it was. *)
Theorem invalid_topic_ignored (topic : string) (json : value) (w : world) :
  List.length (split "/" topic) <> 5 ->
  ~ (List.length (split "/" topic) = 4
     /\ nth 3 (split "/" topic) EmptyString = "__clientInfo__") ->
  _handleMessage topic (JSONText json) w
  = (OK tt, w,
     [Log debug ("Message arrived with topic: " ++ topic ++ " and payload:");
      Log warn ("Ignoring message with invalid topic: " ++ topic)]).
Proof.
  intros H5 H4. unfold _handleMessage. run_to.
  - apply try_catch_ok.
    eapply bind_ok; [reflexivity |]. cbv beta.
    eapply bind_ok; [reflexivity |]. cbv beta zeta.
    destruct (Nat.eqb_spec (List.length (split "/" topic)) 4) as [E4|N4];
      destruct (String.eqb_spec (nth 3 (split "/" topic) EmptyString) "__clientInfo__")
        as [Ec|Nc]; cbn [andb]; try (exfalso; apply H4; now split);
      (destruct (Nat.eqb_spec (List.length (split "/" topic)) 5) as [E5|N5];
       [contradiction | reflexivity]).
  - reflexivity.
Qed.

(** X3.  A payload that is not JSON text, the empty payload of a cleared
    retained slot included, is not dispatched either: on any topic the
    adapter is not called, nothing is published or subscribed, and the agent
    is left as it was. *)
Theorem not_json_not_dispatched (topic text : string) (w : world) :
  (world_of (_handleMessage topic (NotJSON text) w) = w
   /\ adapter_calls (events_of (_handleMessage topic (NotJSON text) w)) = []
   /\ Bench.mqtt_calls (events_of (_handleMessage topic (NotJSON text) w)) = [])
  /\ (world_of (_handleMessage topic NoPayload w) = w
      /\ adapter_calls (events_of (_handleMessage topic NoPayload w)) = []
      /\ Bench.mqtt_calls (events_of (_handleMessage topic NoPayload w)) = []).
Proof. repeat split. Qed.

(** X4.  A client-info message whose status is not [offline] changes
    nothing: no adapter call, no unsubscription. *)
Theorem clientInfo_not_offline (topic a b c : string) (json status : value) (w : world) :
  split "/" topic = [a; b; c; "__clientInfo__"] ->
  get_prop json "status" = OK status ->
  strict_eq status (VStr "offline") = false ->
  _handleMessage topic (JSONText json) w
  = (OK tt, w, [Log debug ("Message arrived with topic: " ++ topic ++ " and payload:")]).
Proof.
  intros Htok Hst Hoff. unfold _handleMessage. run_to.
  - apply try_catch_ok.
    eapply bind_ok; [reflexivity |]. cbv beta.
    eapply bind_ok; [reflexivity |]. cbv beta zeta.
    rewrite Htok. cbn [List.length Nat.eqb nth andb].
    change (String.eqb "__clientInfo__" "__clientInfo__") with true. cbv iota.
    unfold _handleClientInfoMessage. rewrite Hst.
    eapply bind_ok; [reflexivity |]. cbv beta. rewrite Hoff. reflexivity.
  - reflexivity.
Qed.

(** ** The offline handler *)

Lemma keeps_this_bind {X Y : Type} (m : M X) (f : X -> M Y) :
  keeps_this m -> (forall x, keeps_this (f x)) -> keeps_this (bind m f).
Proof.
  intros Hm Hf w. specialize (Hm w). unfold bind, world_of in *.
  destruct (m w) as [[[x|e] w1] t1]; cbn in *; [| exact Hm].
  specialize (Hf x w1). unfold world_of in Hf.
  destruct (f x w1) as [[r w2] t2]. cbn in *. congruence.
Qed.

Lemma keeps_this_lift {X : Type} (r : result X) : keeps_this (lift r).
Proof. intros w. reflexivity. Qed.

Lemma keeps_this_log lvl text : keeps_this (log lvl text).
Proof. intros w. reflexivity. Qed.

Lemma keeps_this_ret {X : Type} (x : X) : keeps_this (ret x).
Proof. intros w. reflexivity. Qed.

Lemma keeps_this_adapter_call json : keeps_this (adapter_call json).
Proof.
  intros w. unfold adapter_call, world_of. now destruct (_call json (adapter w)).
Qed.

Lemma keeps_this_mqttUnsubscribe topic : keeps_this (_mqttUnsubscribe topic).
Proof.
  intros w. unfold _mqttUnsubscribe, bind, get_this, world_of.
  now destruct (_client (this w)).
Qed.

Lemma keeps_this_forEach {X : Type} (l : list X) (f : X -> M unit) :
  (forall x, keeps_this (f x)) -> keeps_this (forEach l f).
Proof.
  intros Hf. induction l as [|x rest IH]; [apply keeps_this_ret |].
  cbn [forEach]. apply keeps_this_bind; auto.
Qed.

(** X5.  The handler of client-info messages never changes the agent
    object: whatever it deletes in the adapter, the tracker keeps the client
    and the instances recorded for it. *)
Theorem clientInfo_keeps_tracker (topic : string) (json : value) (w : world) :
  this (world_of (_handleClientInfoMessage topic json w)) = this w.
Proof.
  revert w. change (keeps_this (_handleClientInfoMessage topic json)).
  unfold _handleClientInfoMessage.
  apply keeps_this_bind; [apply keeps_this_lift | intros status].
  destruct (strict_eq status (VStr "offline")); [| apply keeps_this_ret].
  apply keeps_this_bind; [intros w; reflexivity | intros a].
  apply keeps_this_bind.
  - destruct (Map_get _ _); [| apply keeps_this_ret].
    apply keeps_this_forEach. intros instanceId.
    apply keeps_this_bind; [apply keeps_this_adapter_call | intros ?].
    apply keeps_this_bind; [apply keeps_this_lift | intros ?].
    apply keeps_this_bind; [apply keeps_this_lift | intros r0].
    destruct (truthy r0); [apply keeps_this_log | apply keeps_this_ret].
  - intros _. apply keeps_this_bind; [intros w; reflexivity | intros _].
    apply keeps_this_mqttUnsubscribe.
Qed.

Lemma adapter_calls_app t1 t2 :
  adapter_calls (t1 ++ t2) = (adapter_calls t1 ++ adapter_calls t2)%list.
Proof. apply flat_map_app. Qed.

Lemma offline_step_calls instanceId (w : world) :
  adapter_calls (events_of (offline_step instanceId w)) = [delete_envelope instanceId].
Proof.
  unfold offline_step, bind, adapter_call, lift, events_of.
  destruct (_call (delete_envelope instanceId) (adapter w)) as [[j|e] ad]; [| reflexivity].
  destruct (get_prop j "data") as [d|e]; [| reflexivity].
  destruct (get_prop d "r") as [r|e]; [| reflexivity].
  destruct (truthy r); reflexivity.
Qed.

Lemma forEach_offline_step_calls (entry : JSSet) (w : world) :
  exists n,
    adapter_calls (events_of (forEach entry offline_step w))
    = map delete_envelope (firstn n entry)
    /\ (outcome_of (forEach entry offline_step w) = OK tt -> n = List.length entry).
Proof.
  revert w. induction entry as [|i rest IH]; intros w.
  - exists 0. split; reflexivity.
  - cbn [forEach]. pose proof (offline_step_calls i w) as Hs.
    unfold bind, events_of, outcome_of in *.
    destruct (offline_step i w) as [[[[]|e] w1] t1]; cbn [fst snd] in *.
    + destruct (IH w1) as (n & Hn & Hlen). unfold events_of, outcome_of in *.
      destruct (forEach rest offline_step w1) as [[r w2] t2]. cbn [fst snd] in *.
      exists (S n). rewrite adapter_calls_app, Hs, Hn. split; [reflexivity |].
      intros H. cbn. f_equal. now apply Hlen.
    + exists 1. rewrite Hs. split; [reflexivity | discriminate].
Qed.

(** X6.  On an offline message the adapter is called with one made-up
    [__delete__] envelope per instance recorded for the client the handler
    works on, in the order the instances were recorded; the calls stop at
    the first one that throws, and are all made when the handler returns. *)
Theorem offline_deletes_in_order (topic : string) (json : value) (entry : JSSet)
    (w : world) :
  get_prop json "status" = OK (VStr "offline") ->
  Map_get (_unnamedInstances (this w)) (VStr (slice_0_minus 9 topic)) = Some entry ->
  exists n,
    adapter_calls (events_of (_handleClientInfoMessage topic json w))
    = map delete_envelope (firstn n entry)
    /\ (outcome_of (_handleClientInfoMessage topic json w) = OK tt ->
        n = List.length entry).
Proof.
  intros Hst Hg.
  set (tail := fun _ : unit =>
         adapter_unregisterEventListeners (VStr (slice_0_minus 9 topic)) ;;
         _mqttUnsubscribe (slice_0_minus 9 topic ++ "/__clientInfo__")).
  assert (E : _handleClientInfoMessage topic json w
              = bind (forEach entry offline_step) tail w).
  { unfold _handleClientInfoMessage. rewrite Hst.
    unfold bind at 1, lift at 1.
    change (strict_eq (VStr "offline") (VStr "offline")) with true. cbv iota.
    unfold bind at 1, get_this at 1. rewrite Hg. cbn [app].
    change (forEach entry _) with (forEach entry offline_step).
    unfold tail.
    match goal with |- _ = ?rhs => destruct rhs as [[r w2] t2] end. reflexivity. }
  assert (Htail : forall w1 : world, adapter_calls (events_of (tail tt w1)) = []).
  { intros w1. unfold tail, adapter_unregisterEventListeners, _mqttUnsubscribe,
      get_this, bind, events_of. cbn [this]. now destruct (_client (this w1)). }
  rewrite E. destruct (forEach_offline_step_calls entry w) as (n & Hn & Hlen).
  exists n. unfold bind, events_of, outcome_of in *.
  destruct (forEach entry offline_step w) as [[[[]|e] w1] t1]; cbn [fst snd] in *.
  - specialize (Htail w1). unfold events_of in Htail.
    destruct (tail tt w1) as [[r w2] t2]. cbn [fst snd] in *.
    rewrite adapter_calls_app, Hn, Htail, app_nil_r. auto.
  - split; [exact Hn | discriminate].
Qed.

(** ** The tracker *)

Lemma same_value_zero_eq a b : same_value_zero a b = true -> a = b.
Proof.
  destruct a, b; cbn; try discriminate; intros H; try reflexivity;
    try (apply String.eqb_eq in H; now subst).
  apply Bool.eqb_prop in H. now subst.
Qed.

Lemma Map_get_Map_set_found m k s e :
  Map_get m k = Some e -> Map_get (Map_set m k s) k = Some s.
Proof.
  induction m as [|[k0 s0] rest IH]; cbn; [discriminate |].
  destruct (same_value_zero k k0) eqn:E; cbn; rewrite E; auto.
Qed.

Lemma Map_get_Map_set_new m k s :
  primitive k -> Map_get m k = None -> Map_get (Map_set m k s) k = Some s.
Proof.
  intros Pk. induction m as [|[k0 s0] rest IH]; cbn.
  - now rewrite Pk.
  - destruct (same_value_zero k k0) eqn:E; [discriminate |]. cbn. now rewrite E.
Qed.

Lemma same_value_zero_distinct k k' k0 :
  same_value_zero k k' = false -> same_value_zero k k0 = true ->
  same_value_zero k' k0 = false.
Proof.
  intros Hne E. destruct (same_value_zero k' k0) eqn:E'; [| reflexivity].
  pose proof (same_value_zero_eq _ _ E) as H1.
  pose proof (same_value_zero_eq _ _ E') as H2. subst. congruence.
Qed.

Lemma Map_get_Map_set_other m k k' s :
  same_value_zero k k' = false -> Map_get (Map_set m k s) k' = Map_get m k'.
Proof.
  intros Hne. induction m as [|[k0 s0] rest IH]; cbn.
  - destruct (same_value_zero k' k) eqn:E; [| reflexivity].
    pose proof (same_value_zero_eq _ _ E). subst k'. congruence.
  - destruct (same_value_zero k k0) eqn:E; cbn.
    + now rewrite (same_value_zero_distinct _ _ _ Hne E).
    + now rewrite IH.
Qed.

Lemma Set_has_Set_add s v : primitive v -> Set_has (Set_add s v) v = true.
Proof.
  intros Pv. unfold Set_add. destruct (Set_has s v) eqn:E; [exact E |].
  unfold Set_has. rewrite existsb_app. cbn. rewrite Pv. apply orb_true_r.
Qed.

Lemma Set_has_Set_delete s v : Set_has (Set_delete s v) v = false.
Proof.
  unfold Set_has, Set_delete. induction s as [|x rest IH]; [reflexivity |].
  cbn. destruct (same_value_zero v x) eqn:E; cbn; [exact IH |]. now rewrite E.
Qed.

Lemma _registerUnnamedInstance_run instanceId clientId (w : world) c :
  _client (this w) = Some c ->
  exists t,
    _registerUnnamedInstance instanceId clientId w
    = (OK tt,
       {| this := set_unnamedInstances
                    (registered (_unnamedInstances (this w)) instanceId clientId) (this w);
          adapter := adapter w; hostname := hostname w |}, t)
    /\ subscribed t
       = (if Map_has (_unnamedInstances (this w)) clientId
             || Map_has (_namedInstances (this w)) clientId
          then [] else [clientInfo_topic clientId])
    /\ unsubscribed t = [] /\ publications t = []
    /\ (Map_has (_unnamedInstances (this w)) clientId = true -> t = []).
Proof.
  intros Hc. unfold _registerUnnamedInstance, registered, Map_has.
  unfold bind at 1, get_this at 1.
  destruct (Map_get (_unnamedInstances (this w)) clientId) as [entry|].
  - eexists. split; [reflexivity |]. cbn. auto.
  - destruct (Map_get (_namedInstances (this w)) clientId) as [entry'|];
      unfold bind, modify_this, _mqttSubscribe, get_this, log, tell, ret; cbn;
      rewrite ?Hc; eexists; (split; [reflexivity |]); cbn;
      repeat split; discriminate.
Qed.

Lemma _registerNamedInstance_run instanceId clientId (w : world) c :
  _client (this w) = Some c ->
  exists t,
    _registerNamedInstance instanceId clientId w
    = (OK tt,
       {| this := set_namedInstances
                    (registered (_namedInstances (this w)) instanceId clientId) (this w);
          adapter := adapter w; hostname := hostname w |}, t)
    /\ subscribed t
       = (if Map_has (_namedInstances (this w)) clientId
             || Map_has (_unnamedInstances (this w)) clientId
          then [] else [clientInfo_topic clientId])
    /\ unsubscribed t = [] /\ publications t = []
    /\ (Map_has (_namedInstances (this w)) clientId = true -> t = []).
Proof.
  intros Hc. unfold _registerNamedInstance, registered, Map_has.
  unfold bind at 1, get_this at 1.
  destruct (Map_get (_namedInstances (this w)) clientId) as [entry|].
  - eexists. split; [reflexivity |]. cbn. auto.
  - destruct (Map_get (_unnamedInstances (this w)) clientId) as [entry'|];
      unfold bind, modify_this, _mqttSubscribe, get_this, log, tell, ret; cbn;
      rewrite ?Hc; eexists; (split; [reflexivity |]); cbn;
      repeat split; discriminate.
Qed.

Lemma registered_lookup m instanceId clientId :
  primitive instanceId -> primitive clientId ->
  exists entry, Map_get (registered m instanceId clientId) clientId = Some entry
                /\ Set_has entry instanceId = true.
Proof.
  intros Pi Pc. unfold registered.
  destruct (Map_get m clientId) as [entry|] eqn:E.
  - exists (Set_add entry instanceId).
    split; [now apply Map_get_Map_set_found with entry | now apply Set_has_Set_add].
  - exists [instanceId]. split; [now apply Map_get_Map_set_new |].
    cbn. now rewrite Pi.
Qed.

Lemma registered_other m instanceId clientId other :
  same_value_zero clientId other = false ->
  Map_get (registered m instanceId clientId) other = Map_get m other.
Proof.
  intros Hne. unfold registered.
  destruct (Map_get m clientId); now apply Map_get_Map_set_other.
Qed.

(** X7.  After [_registerUnnamedInstance] the instance is found in the set
    of its client; the sets of all other clients and the named instances
    are as before; and the agent has subscribed to the client-info topic of
    the client exactly if the client was in neither map. *)
Theorem register_unnamed_then_lookup (instanceId clientId : value) (w : world) c :
  _client (this w) = Some c -> primitive instanceId -> primitive clientId ->
  let run := _registerUnnamedInstance instanceId clientId w in
  outcome_of run = OK tt
  /\ (exists entry,
        Map_get (_unnamedInstances (this (world_of run))) clientId = Some entry
        /\ Set_has entry instanceId = true)
  /\ (forall other, same_value_zero clientId other = false ->
        Map_get (_unnamedInstances (this (world_of run))) other
        = Map_get (_unnamedInstances (this w)) other)
  /\ _namedInstances (this (world_of run)) = _namedInstances (this w)
  /\ subscribed (events_of run)
     = (if Map_has (_unnamedInstances (this w)) clientId
           || Map_has (_namedInstances (this w)) clientId
        then [] else [clientInfo_topic clientId]).
Proof.
  intros Hc Pi Pc run.
  destruct (_registerUnnamedInstance_run instanceId clientId w c Hc) as (t & E & Hs & _).
  subst run. rewrite E. unfold outcome_of, world_of, events_of. cbn [fst snd this].
  repeat split; trivial.
  - now apply registered_lookup.
  - intros other Hne. now apply registered_other.
Qed.

Lemma Map_get_existsb m k entry instanceId :
  Map_get m k = Some entry -> Set_has entry instanceId = true ->
  existsb (fun e => Set_has (snd e) instanceId) m = true.
Proof.
  intros Hg Hh. induction m as [|[k0 s0] rest IH]; cbn [Map_get existsb snd] in *;
    [discriminate |].
  destruct (same_value_zero k k0).
  - injection Hg as ->. now rewrite Hh.
  - rewrite (IH Hg). apply orb_true_r.
Qed.

(** X8.  After [_registerNamedInstance] the instance is found by
    [_hasNamedInstance]; the anonymous instances are as before; and the agent
    has subscribed to the client-info topic of the client exactly if the
    client was in neither map. *)
Theorem register_named_then_has (instanceId clientId : value) (w : world) c :
  _client (this w) = Some c -> primitive instanceId -> primitive clientId ->
  let run := _registerNamedInstance instanceId clientId w in
  outcome_of run = OK tt
  /\ outcome_of (_hasNamedInstance instanceId (world_of run)) = OK true
  /\ _unnamedInstances (this (world_of run)) = _unnamedInstances (this w)
  /\ subscribed (events_of run)
     = (if Map_has (_namedInstances (this w)) clientId
           || Map_has (_unnamedInstances (this w)) clientId
        then [] else [clientInfo_topic clientId]).
Proof.
  intros Hc Pi Pc run.
  destruct (_registerNamedInstance_run instanceId clientId w c Hc) as (t & E & Hs & _).
  subst run. rewrite E. unfold outcome_of, world_of, events_of. cbn [fst snd this].
  repeat split; trivial.
  unfold _hasNamedInstance, bind, get_this, ret. cbn [fst this set_namedInstances
    _namedInstances]. f_equal.
  destruct (registered_lookup (_namedInstances (this w)) instanceId clientId Pi Pc)
    as (entry & Hg & Hh).
  now apply Map_get_existsb with clientId entry.
Qed.

(** X9.  Registering an instance a second time for the same client changes
    nothing: the tracker is as after the first time, and nothing is
    subscribed or logged. *)
Theorem register_twice (instanceId clientId : value) (w : world) c :
  _client (this w) = Some c -> primitive instanceId -> primitive clientId ->
  (let w1 := world_of (_registerUnnamedInstance instanceId clientId w) in
   _registerUnnamedInstance instanceId clientId w1 = (OK tt, w1, []))
  /\ (let w1 := world_of (_registerNamedInstance instanceId clientId w) in
      _registerNamedInstance instanceId clientId w1 = (OK tt, w1, [])).
Proof.
  intros Hc Pi Pc. split.
  - destruct (_registerUnnamedInstance_run instanceId clientId w c Hc) as (t & E & _).
    rewrite E. unfold world_of. cbn [fst snd].
    destruct (registered_lookup (_unnamedInstances (this w)) instanceId clientId Pi Pc)
      as (entry & Hg & Hh).
    unfold _registerUnnamedInstance, bind, get_this, modify_this.
    cbn [this set_unnamedInstances _unnamedInstances]. rewrite Hg.
    unfold Set_add. rewrite Hh. cbn [app].
    assert (Hm : forall m, Map_get m clientId = Some entry -> Map_set m clientId entry = m).
    { clear. induction m as [|[k0 s0] rest IH]; cbn; [discriminate |].
      destruct (same_value_zero clientId k0); intros H;
        [now injection H as -> | now rewrite IH]. }
    rewrite (Hm _ Hg). reflexivity.
  - destruct (_registerNamedInstance_run instanceId clientId w c Hc) as (t & E & _).
    rewrite E. unfold world_of. cbn [fst snd].
    destruct (registered_lookup (_namedInstances (this w)) instanceId clientId Pi Pc)
      as (entry & Hg & Hh).
    unfold _registerNamedInstance, bind, get_this, modify_this.
    cbn [this set_namedInstances _namedInstances]. rewrite Hg.
    unfold Set_add. rewrite Hh. cbn [app].
    assert (Hm : forall m, Map_get m clientId = Some entry -> Map_set m clientId entry = m).
    { clear. induction m as [|[k0 s0] rest IH]; cbn; [discriminate |].
      destruct (same_value_zero clientId k0); intros H;
        [now injection H as -> | now rewrite IH]. }
    rewrite (Hm _ Hg). reflexivity.
Qed.




Lemma _unregisterInstance_anonymous instanceId clientId (entry : JSSet) (w : world) :
  Map_get (_unnamedInstances (this w)) clientId = Some entry ->
  Set_has entry instanceId = true ->
  _unregisterInstance instanceId clientId w
  = (OK false,
     {| this := set_unnamedInstances
                  (Map_set (_unnamedInstances (this w)) clientId
                           (Set_delete entry instanceId)) (this w);
        adapter := adapter w; hostname := hostname w |}, []).
Proof.
  intros Hg Hh. unfold _unregisterInstance, bind at 1. cbn [get_this].
  rewrite Hg, Hh. reflexivity.
Qed.

(** X11.  When the set of anonymous instances of the sender holds the
    instance, [_unregisterInstance] takes it out of that set and answers
    [false]: the named instances are not looked at, even if one of them has
    the same identifier, and nothing is logged or unsubscribed. *)
Theorem unregister_anonymous (instanceId clientId : value) (entry : JSSet) (w : world) :
  Map_get (_unnamedInstances (this w)) clientId = Some entry ->
  Set_has entry instanceId = true ->
  let run := _unregisterInstance instanceId clientId w in
  run = (OK false,
         {| this := set_unnamedInstances
                      (Map_set (_unnamedInstances (this w)) clientId
                               (Set_delete entry instanceId)) (this w);
            adapter := adapter w; hostname := hostname w |}, [])
  /\ (exists entry',
        Map_get (_unnamedInstances (this (world_of run))) clientId = Some entry'
        /\ Set_has entry' instanceId = false)
  /\ _namedInstances (this (world_of run)) = _namedInstances (this w).
Proof.
  intros Hg Hh run.
  assert (E : run
    = (OK false,
       {| this := set_unnamedInstances
                    (Map_set (_unnamedInstances (this w)) clientId
                             (Set_delete entry instanceId)) (this w);
          adapter := adapter w; hostname := hostname w |}, [])).
  { subst run. now apply _unregisterInstance_anonymous. }
  split; [exact E |]. rewrite E. unfold world_of. cbn [fst snd this].
  split; [| reflexivity].
  exists (Set_delete entry instanceId).
  split; [now apply Map_get_Map_set_found with entry | apply Set_has_Set_delete].
Qed.

(** ** Life-cycle calls through [_handleMessage] *)

Lemma subscribed_app t1 t2 :
  subscribed (t1 ++ t2) = (subscribed t1 ++ subscribed t2)%list.
Proof. apply flat_map_app. Qed.



(** A message whose life-cycle step asks for no class info, and whose reply
    can be serialized as it is. *)
Lemma _handleMessage_quiet topic t0 t1 className instance method arr props
    (w : world) c json' ad' da dprops sender w1 tl :
  _client (this w) = Some c ->
  split "/" topic = [t0; t1; className; instance; method] ->
  _call (rpc_request arr props className instance method) (adapter w) = (OK json', ad') ->
  get_prop json' "data" = OK (VObj da dprops) ->
  get_prop json' "sender" = OK sender ->
  serializable json' = true ->
  lifecycle className instance method json' (with_adapter ad' w) = (OK false, w1, tl) ->
  _handleMessage topic (JSONText (VObj arr props)) w
  = (OK tt, w1,
     [Log debug ("Message arrived with topic: " ++ topic ++ " and payload:");
      AdapterCall (rpc_request arr props className instance method)]
     ++ tl ++ [Publish sender (JSONText json') (_qos (this w)) false])%list.
Proof.
  intros Hc Htok Hcall Hd Hsender Hs Hl.
  assert (Hr : reply_envelope json' = json') by (unfold reply_envelope; now rewrite Hs).
  assert (Hs' : serializable (reply_envelope json') = true) by now rewrite Hr.
  destruct (_handleMessage_run _ _ _ _ _ _ _ _ _ _ _ _ _ _ Hc Htok Hcall Hd Hs')
    as (sender' & b & w1' & tl' & ts & Hsender' & El & _ & _ & _ & Hts & Erun).
  assert (sender' = sender) as -> by congruence.
  rewrite Hl in El. inversion El; subst b w1' tl'.
  rewrite (Hts Hs), Hr in Erun. rewrite Erun. cbn [andb app]. reflexivity.
Qed.







Lemma lifecycle_delete_anonymous className instance json data _1 sender entry
    (w : world) c :
  _client (this w) = Some c ->
  get_prop json "data" = OK data -> get_prop data "_1" = OK _1 ->
  get_prop json "sender" = OK sender ->
  Map_get (_unnamedInstances (this w)) sender = Some entry ->
  Set_has entry _1 = true ->
  lifecycle className instance "__delete__" json w
  = (OK false,
     {| this := set_unnamedInstances
                  (Map_set (_unnamedInstances (this w)) sender (Set_delete entry _1))
                  (this w);
        adapter := adapter w; hostname := hostname w |},
     [Unsubscribe (instance_topic (this w) className instance);
      Log debug ("Unsubscribed from topic after deletion: "
                 ++ instance_topic (this w) className instance)]).
Proof.
  intros Hc Hd E1 Hs Hg Hh. unfold lifecycle.
  change (String.eqb "__delete__" "__create__") with false.
  change (String.eqb "__delete__" "__createNamed__") with false.
  change (String.eqb "__delete__" "__getNamed__") with false.
  change (String.eqb "__delete__" "__delete__") with true.
  cbv iota. rewrite Hd, Hs. run_to.
  - eapply bind_ok; [reflexivity |]. cbv beta. rewrite E1.
    eapply bind_ok; [reflexivity |]. cbv beta.
    eapply bind_ok; [reflexivity |]. cbv beta.
    eapply bind_ok; [now apply _unsubscribeMethodsOfDeletedInstance_run with c |].
    cbv beta.
    eapply bind_ok; [exact (_unregisterInstance_anonymous _ _ entry _ Hg Hh) |].
    reflexivity.
  - cbn [app]. reflexivity.
Qed.

(** X15.  A [__delete__] call for an instance that the sender has as an
    anonymous instance takes the instance out of the sender's set, leaves
    the named instances alone and publishes the reply only: no class info
    follows the deletion of an anonymous instance. *)
Theorem delete_anonymous_quiet topic t0 t1 className instance arr props
    (w : world) c json' ad' da dprops sender entry :
  _client (this w) = Some c ->
  split "/" topic = [t0; t1; className; instance; "__delete__"] ->
  _call (rpc_request arr props className instance "__delete__") (adapter w)
    = (OK json', ad') ->
  get_prop json' "data" = OK (VObj da dprops) ->
  get_prop json' "sender" = OK sender ->
  serializable json' = true ->
  Map_get (_unnamedInstances (this w)) sender = Some entry ->
  Set_has entry (prop_of dprops "_1") = true ->
  let run := _handleMessage topic (JSONText (VObj arr props)) w in
  _unnamedInstances (this (world_of run))
    = Map_set (_unnamedInstances (this w)) sender (Set_delete entry (prop_of dprops "_1"))
  /\ _namedInstances (this (world_of run)) = _namedInstances (this w)
  /\ subscribed (events_of run) = []
  /\ publications (events_of run) = [Publish sender (JSONText json') (_qos (this w)) false].
Proof.
  intros Hc Htok Hcall Hd Hsender Hs Hg Hh run.
  assert (Hcw : _client (this (with_adapter ad' w)) = Some c) by exact Hc.
  pose proof (lifecycle_delete_anonymous className instance json' _ _ sender entry
                (with_adapter ad' w) c Hcw Hd (get_prop_obj _ _ "_1") Hsender Hg Hh) as El.
  subst run.
  rewrite (_handleMessage_quiet _ _ _ _ _ _ _ _ _ _ _ _ _ _ _ _ _
             Hc Htok Hcall Hd Hsender Hs El).
  unfold world_of, events_of. cbn. repeat split; reflexivity.
Qed.

(** X16.  When the adapter call throws, the agent logs the error and stops
    handling the message there: the tracker is as before and nothing is
    published, subscribed or unsubscribed. *)
Theorem adapter_throw_logged topic t0 t1 className instance method arr props
    (w : world) e ad' :
  split "/" topic = [t0; t1; className; instance; method] ->
  _call (rpc_request arr props className instance method) (adapter w) = (Throw e, ad') ->
  _handleMessage topic (JSONText (VObj arr props)) w
  = (OK tt, with_adapter ad' w,
     [Log debug ("Message arrived with topic: " ++ topic ++ " and payload:");
      AdapterCall (rpc_request arr props className instance method);
      Log error ("Problem while handling incoming message: " ++ err_message e)]).
Proof.
  intros Htok Hcall. unfold _handleMessage. run_to.
  - eapply try_catch_throw; [| reflexivity].
    eapply bind_ok; [reflexivity |]. cbv beta.
    eapply bind_ok; [reflexivity |]. cbv beta zeta.
    rewrite Htok. cbn [List.length Nat.eqb andb negb nth].
    cbn [set_prop]. eapply bind_ok; [reflexivity |]. cbv beta.
    cbn [set_prop]. eapply bind_ok; [reflexivity |]. cbv beta.
    eapply bind_throw.
    unfold adapter_call. unfold rpc_request in Hcall. rewrite Hcall. reflexivity.
  - reflexivity.
Qed.

(** ** Topics *)

Lemma split_no_slash (s : string) : no_slash s -> split "/" s = [s].
Proof.
  unfold no_slash. induction s as [|ch rest IH]; [reflexivity |].
  cbn [list_ascii_of_string split]. intros H.
  destruct (Ascii.eqb_spec ch "/"%char) as [->|_]; [exfalso; apply H; now left |].
  rewrite IH; [reflexivity |]. intros Hin. apply H. now right.
Qed.

Lemma split_level (s rest : string) :
  no_slash s -> split "/" (s ++ String "/" rest) = s :: split "/" rest.
Proof.
  unfold no_slash. induction s as [|ch s' IH]; intros H.
  - reflexivity.
  - cbn [append split list_ascii_of_string] in *.
    destruct (Ascii.eqb_spec ch "/"%char) as [->|_]; [exfalso; apply H; now left |].
    rewrite IH; [reflexivity |]. intros Hin. apply H. now right.
Qed.

Lemma no_slash_of_allowed (s : string) : matches_forbidden s = false -> no_slash s.
Proof.
  unfold no_slash. intros Hm Hin.
  assert (matches_forbidden s = true); [| congruence].
  apply matches_forbidden_spec. exists "/"%char. split; [exact Hin |].
  unfold forbidden. cbn. auto.
Qed.

Lemma constructor_levels (o : options) (a : VrpcAgent) :
  constructor o = OK a ->
  no_slash (_domain a) /\ no_slash (_agent a)
  /\ _baseTopic a = _domain a ++ String "/" (_agent a).
Proof.
  unfold constructor, _validateDomain, _validateAgent.
  destruct (falsy_string (domain o)); [discriminate |].
  destruct (matches_forbidden (default EmptyString (domain o))) eqn:Ed; [discriminate |].
  destruct (falsy_string (agent o)); [discriminate |].
  destruct (matches_forbidden (default EmptyString (agent o))) eqn:Ea; [discriminate |].
  intros H. injection H as <-. cbn.
  repeat split; try now apply no_slash_of_allowed.
Qed.

(** X17.  The topics of an agent that the constructor has accepted come
    apart again as [_handleMessage] reads them: a static topic and an
    instance topic have five levels, with the class in the third and the
    function in the fifth, and the base topic has two. *)
Theorem topics_of_constructed_agent (o : options) (a : VrpcAgent)
    (className instance func : string) :
  constructor o = OK a ->
  no_slash className -> no_slash instance -> no_slash func ->
  split "/" (_baseTopic a) = [_domain a; _agent a]
  /\ split "/" (_baseTopic a ++ "/" ++ className ++ "/__static__/" ++ func)
     = [_domain a; _agent a; className; "__static__"; func]
  /\ split "/" (instance_topic a className instance)
     = [_domain a; _agent a; className; instance; "+"].
Proof.
  intros Hk Hc Hi Hf. destruct (constructor_levels o a Hk) as (Hd & Ha & Hb).
  unfold instance_topic. rewrite Hb.
  change ("/" ++ ?x) with (String "/" x).
  change ("/__static__/" ++ func) with (String "/" ("__static__" ++ String "/" func)).
  change ("/+") with (String "/" "+").
  rewrite !append_assoc. cbn [append].
  assert (Hst : no_slash "__static__").
  { intros Hin. cbn in Hin. repeat (destruct Hin as [Hin|Hin]; [discriminate |]).
    exact Hin. }
  repeat split.
  - rewrite split_level by assumption. now rewrite split_no_slash.
  - repeat (rewrite split_level by assumption).
    pose proof (split_level "__static__" func Hst) as Hx. cbn [append] in Hx.
    rewrite Hx. now rewrite split_no_slash.
  - repeat (rewrite split_level by assumption). reflexivity.
Qed.

(** ** Connecting and stopping *)

Lemma retained_topics_app t1 t2 :
  retained_topics (t1 ++ t2) = (retained_topics t1 ++ retained_topics t2)%list.
Proof. apply flat_map_app. Qed.

Lemma cleared_topics_app t1 t2 :
  cleared_topics (t1 ++ t2) = (cleared_topics t1 ++ cleared_topics t2)%list.
Proof. apply flat_map_app. Qed.

(** X18.  The first connect subscribes to the static topics of the classes
    and to nothing else, with no call for an empty list of topics; when the
    class info of every class can be serialized, the retained messages are
    the agent info and then the class info of every class; and the agent is
    left as it was. *)
Theorem first_connect (w : world) c :
  _client (this w) = Some c -> _isReconnect (this w) = false ->
  (forall className, In className (getAvailableClasses (adapter w)) ->
     serializable (classInfo className (adapter w)) = true) ->
  let run := _handleConnect w in
  outcome_of run = OK tt /\ world_of run = w
  /\ subscribed (events_of run)
     = flat_map (fun className =>
                   map (fun func => _baseTopic (this w) ++ "/" ++ className
                                    ++ "/__static__/" ++ func)
                       (getAvailableStaticFunctions className (adapter w)))
                (getAvailableClasses (adapter w))
  /\ ~ In (Subscribe [] (_qos (this w))) (events_of run)
  /\ retained_topics (events_of run)
     = VStr (_baseTopic (this w) ++ "/__agentInfo__")
       :: map (fun className => VStr (classInfo_topic (this w) className))
              (getAvailableClasses (adapter w)).
Proof.
  intros Hc Hf Hser run. subst run. rewrite (_handleConnect_first w c Hc Hf).
  unfold outcome_of, world_of, events_of. cbn [fst snd].
  set (classes := getAvailableClasses (adapter w)) in *.
  set (topics := flat_map _ classes).
  assert (Hci : forall l, (forall x, In x l -> In x classes) ->
            flat_map (fun className => classInfo_events className w) l
            = map (fun className =>
                     Publish (VStr (classInfo_topic (this w) className))
                             (JSONText (classInfo className (adapter w)))
                             (_qos (this w)) true) l).
  { induction l as [|x l IH]; intros Hl; [reflexivity |].
    cbn [flat_map map]. rewrite IH by (intros y Hy; apply Hl; now right).
    unfold classInfo_events at 1. rewrite (Hser x) by (apply Hl; now left). reflexivity. }
  rewrite (Hci classes) by auto.
  assert (Hsub : forall l : list string,
            subscribed (map (fun className =>
                     Publish (VStr (classInfo_topic (this w) className))
                             (JSONText (classInfo className (adapter w)))
                             (_qos (this w)) true) l) = []).
  { induction l; [reflexivity | exact IHl]. }
  assert (Hret : forall l : list string,
            retained_topics (map (fun className =>
                     Publish (VStr (classInfo_topic (this w) className))
                             (JSONText (classInfo className (adapter w)))
                             (_qos (this w)) true) l)
            = map (fun className => VStr (classInfo_topic (this w) className)) l).
  { induction l as [|x l IH]; [reflexivity |].
    change (VStr (classInfo_topic (this w) x)
            :: retained_topics (map (fun className =>
                     Publish (VStr (classInfo_topic (this w) className))
                             (JSONText (classInfo className (adapter w)))
                             (_qos (this w)) true) l)
            = VStr (classInfo_topic (this w) x)
              :: map (fun className => VStr (classInfo_topic (this w) className)) l).
    now rewrite IH. }
  repeat split.
  - rewrite !subscribed_app, Hsub.
    destruct (Nat.ltb 0 (List.length topics)) eqn:El.
    + destruct (Nat.ltb 0 (List.length classes)); cbn [subscribed flat_map app];
        now rewrite !app_nil_r.
    + apply Nat.ltb_ge in El. destruct topics; [| cbn in El; lia].
      destruct (Nat.ltb 0 (List.length classes)); reflexivity.
  - intros Hin. apply in_app_or in Hin. destruct Hin as [Hin|Hin].
    { destruct (Nat.ltb 0 (List.length classes)); cbn in Hin;
        destruct Hin as [H|[H|[]]]; discriminate. }
    apply in_app_or in Hin. destruct Hin as [Hin|Hin].
    { destruct (Nat.ltb 0 (List.length topics)) eqn:El; [| destruct Hin].
      destruct Hin as [H|[]]. injection H as H. rewrite H in El. discriminate. }
    apply in_app_or in Hin. destruct Hin as [[H|[]]|Hin]; [discriminate |].
    apply in_app_or in Hin. destruct Hin as [Hin|[H|[]]]; [| discriminate].
    apply in_map_iff in Hin. destruct Hin as (x & H & _). discriminate.
  - rewrite !retained_topics_app, Hret.
    destruct (Nat.ltb 0 (List.length classes)), (Nat.ltb 0 (List.length topics));
      cbn [app]; now rewrite app_nil_r.
Qed.

Lemma forEach_clear (f : string -> value) (classes : list string) (w : world) c :
  _client (this w) = Some c ->
  forEach classes (fun className => _mqttPublish (f className) NoPayload true) w
  = (OK tt, w,
     map (fun className => Publish (f className) NoPayload (_qos (this w)) true) classes).
Proof.
  intros Hc. induction classes as [|x rest IH]; [reflexivity |].
  cbn [forEach map]. eapply bind_ok with (t1 := [_]); [| exact IH].
  unfold _mqttPublish, bind, get_this. rewrite Hc. reflexivity.
Qed.

Lemma end_connected_run (unregister : bool) (w : world) c :
  _client (this w) = Some c -> connected c = true ->
  end_ unregister w
  = (OK tt,
     {| this := set_client (Some {| connected := false |}) (this w);
        adapter := adapter w; hostname := hostname w |},
     Publish (VStr (_baseTopic (this w) ++ "/__agentInfo__"))
             (agentInfo "offline" w) (_qos (this w)) true
     :: (if unregister
         then Publish (VStr (_baseTopic (this w) ++ "/__agentInfo__"))
                      NoPayload (_qos (this w)) true
              :: map (fun className =>
                        Publish (VStr (classInfo_topic (this w) className))
                                NoPayload (_qos (this w)) true)
                     (getAvailableClasses (adapter w))
         else [])
     ++ [ClientEnd; ClearPersistedSession])%list.
Proof.
  intros Hc Hon. unfold end_. run_to.
  - apply try_catch_ok.
    eapply bind_ok; [reflexivity |]. cbv beta. rewrite Hc, Hon. cbn [negb].
    eapply bind_ok; [reflexivity |]. cbv beta.
    eapply bind_ok.
    { unfold _mqttPublish, bind, get_this. rewrite Hc. reflexivity. }
    cbv beta. eapply bind_ok.
    { instantiate (3 := tt). instantiate (2 := w).
      instantiate (1 := if unregister
         then Publish (VStr (_baseTopic (this w) ++ "/__agentInfo__"))
                      NoPayload (_qos (this w)) true
              :: map (fun className =>
                        Publish (VStr (classInfo_topic (this w) className))
                                NoPayload (_qos (this w)) true)
                     (getAvailableClasses (adapter w))
         else []).
      destruct unregister; [| reflexivity].
      eapply bind_ok with (t1 := [_]).
      { unfold _mqttPublish, bind, get_this. rewrite Hc. reflexivity. }
      cbv beta. eapply bind_ok with (t1 := []); [reflexivity |]. cbv beta.
      now apply forEach_clear with c. }
    cbv beta. reflexivity.
  - reflexivity.
Qed.

(** X19.  On a connected agent, [end] publishes the retained offline agent
    info, then, if asked to unregister, an empty retained message on the
    agent-info topic and on the class-info topic of every class, and then
    closes the client and clears the persisted session.  It does not throw,
    and an [end] that follows emits the event end and does nothing else. *)
Theorem end_connected (unregister again : bool) (w : world) c :
  _client (this w) = Some c -> connected c = true ->
  let run := end_ unregister w in
  run
  = (OK tt,
     {| this := set_client (Some {| connected := false |}) (this w);
        adapter := adapter w; hostname := hostname w |},
     Publish (VStr (_baseTopic (this w) ++ "/__agentInfo__"))
             (agentInfo "offline" w) (_qos (this w)) true
     :: (if unregister
         then Publish (VStr (_baseTopic (this w) ++ "/__agentInfo__"))
                      NoPayload (_qos (this w)) true
              :: map (fun className =>
                        Publish (VStr (classInfo_topic (this w) className))
                                NoPayload (_qos (this w)) true)
                     (getAvailableClasses (adapter w))
         else [])
     ++ [ClientEnd; ClearPersistedSession])%list
  /\ end_ again (world_of run) = (OK tt, world_of run, [Emit "end"]).
Proof.
  intros Hc Hon run. subst run. rewrite (end_connected_run unregister w c Hc Hon).
  split; [reflexivity |]. unfold world_of. cbn [fst snd].
  unfold end_, try_catch, bind, get_this. reflexivity.
Qed.

(** X20.  [end] with [unregister] clears exactly the retained messages that
    the first connect has published: the topics it publishes an empty
    retained message to are the topics of the agent info and of the class
    info of every class, in the order of the first connect. *)
Theorem end_clears_what_connect_retained (w : world) c :
  _client (this w) = Some c -> connected c = true -> _isReconnect (this w) = false ->
  (forall className, In className (getAvailableClasses (adapter w)) ->
     serializable (classInfo className (adapter w)) = true) ->
  cleared_topics (events_of (end_ true (world_of (_handleConnect w))))
  = retained_topics (events_of (_handleConnect w)).
Proof.
  intros Hc Hon Hf Hser. rewrite (_handleConnect_first w c Hc Hf).
  unfold world_of, events_of. cbn [fst snd].
  rewrite (end_connected_run true w c Hc Hon). cbn [snd].
  set (classes := getAvailableClasses (adapter w)) in *.
  set (topics := flat_map _ classes).
  assert (Hl : forall l, cleared_topics
            (map (fun className =>
                    Publish (VStr (classInfo_topic (this w) className))
                            NoPayload (_qos (this w)) true) l)
          = map (fun className => VStr (classInfo_topic (this w) className)) l).
  { induction l as [|x l IH]; [reflexivity |].
    change (VStr (classInfo_topic (this w) x)
            :: cleared_topics (map (fun className =>
                    Publish (VStr (classInfo_topic (this w) className))
                            NoPayload (_qos (this w)) true) l)
            = VStr (classInfo_topic (this w) x)
              :: map (fun className => VStr (classInfo_topic (this w) className)) l).
    now rewrite IH. }
  assert (Hr : forall l, (forall x, In x l -> In x classes) ->
            retained_topics
              (flat_map (fun className => classInfo_events className w) l)
            = map (fun className => VStr (classInfo_topic (this w) className)) l).
  { induction l as [|x l IH]; intros Hin; [reflexivity |].
    cbn [flat_map map]. rewrite retained_topics_app, IH
      by (intros y Hy; apply Hin; now right).
    unfold classInfo_events. rewrite (Hser x) by (apply Hin; now left). reflexivity. }
  transitivity (VStr (_baseTopic (this w) ++ "/__agentInfo__")
                :: map (fun className => VStr (classInfo_topic (this w) className)) classes).
  - change (cleared_topics
              ([Publish (VStr (_baseTopic (this w) ++ "/__agentInfo__"))
                        (agentInfo "offline" w) (_qos (this w)) true;
                Publish (VStr (_baseTopic (this w) ++ "/__agentInfo__"))
                        NoPayload (_qos (this w)) true]
               ++ map (fun className =>
                         Publish (VStr (classInfo_topic (this w) className))
                                 NoPayload (_qos (this w)) true) classes
               ++ [ClientEnd; ClearPersistedSession])
            = VStr (_baseTopic (this w) ++ "/__agentInfo__")
              :: map (fun className => VStr (classInfo_topic (this w) className)) classes).
    rewrite !cleared_topics_app, Hl. cbn [app]. now rewrite app_nil_r.
  - symmetry. rewrite !retained_topics_app, Hr by auto.
    destruct (Nat.ltb 0 (List.length classes)), (Nat.ltb 0 (List.length topics));
      cbn [app]; now rewrite app_nil_r.
Qed.

(** ** The options of the connection *)

Lemma length_substring_0 (n : nat) (s : string) :
  String.length (substring 0 n s) = Nat.min n (String.length s).
Proof.
  revert n. induction s as [|ch s IH]; intros [|n]; cbn; try reflexivity.
  now rewrite IH.
Qed.


(** X22.  The client identifier that [serve] hands to the broker is
    [vrpca] followed by the first eighteen characters of the digest: it
    has at most 23 characters, and exactly 23 as soon as the digest has
    eighteen or more, as an MD5 digest in hexadecimal has. *)
Theorem clientId_fits (md5_hex : string -> string) (w : world) :
  exists o,
    outcome_of (serve_options md5_hex w) = OK o
    /\ Mqtt.clientId o
       = "vrpca" ++ substring 0 18 (md5_hex (_domain (this w) ++ _agent (this w)))
    /\ String.length (Mqtt.clientId o) <= 23
    /\ (18 <= String.length (md5_hex (_domain (this w) ++ _agent (this w))) ->
        String.length (Mqtt.clientId o) = 23).
Proof.
  eexists. split; [| split; [| split]].
  - unfold serve_options, bind, get_this, _createAgentInfoPayload, ret, outcome_of.
    cbn. reflexivity.
  - reflexivity.
  - cbn [Mqtt.clientId append String.length]. rewrite length_substring_0. lia.
  - intros H. cbn [Mqtt.clientId append String.length]. rewrite length_substring_0. lia.
Qed.


End Runs.

(** * The adapter's lookup failures *)

Module Lookup.

Import Adapter.

Lemma lifecycle_call_other cls c method json data g :
  is_lifecycle method = false -> lifecycle_call cls c method json data g = None.
Proof.
  unfold is_lifecycle, lifecycle_names. cbn [existsb]. intros H.
  repeat (apply orb_false_elim in H; destruct H as [?E H]).
  unfold lifecycle_call. now rewrite E, E0, E1, E2, E3.
Qed.

(** What a lookup failure leaves: the envelope comes back with the message
    in [data.e], and is otherwise as it was passed. *)
Lemma settle_raises a props da dprops message :
  assoc "data" props = Some (VObj da dprops) ->
  exists json' data',
    settle (VObj a props) (VObj da dprops) (Raises message) = OK json'
    /\ get_prop json' "data" = OK data'
    /\ get_prop data' "e" = OK (VStr message)
    /\ (forall k, k <> "e" -> get_prop data' k = get_prop (VObj da dprops) k)
    /\ (forall k, k <> "data" -> get_prop json' k = get_prop (VObj a props) k).
Proof.
  intros Hd. do 2 eexists. split; [reflexivity |].
  split; [cbn [get_prop]; now rewrite assoc_set_same |].
  split; [cbn [get_prop]; now rewrite assoc_set_same |].
  split; intros k Hk; cbn [get_prop]; now rewrite assoc_set_other.
Qed.

(** C4.  Dispatching an envelope whose context is unknown sets [data.e] to
    Could not find context: followed by the name, and dispatching one whose
    function is unknown sets [data.e] to Could not find function: followed
    by the name.  In both cases the call returns: the envelope comes back,
    otherwise as it was passed, and the registry is as before. *)
Theorem lookup_failure_reported (g : registry) (json context method : value)
    (da : bool) (dprops : list (string * value)) :
  get_prop json "context" = OK context ->
  get_prop json "method" = OK method ->
  get_prop json "data" = OK (VObj da dprops) ->
  (unknown_context (template_str context) g ->
   exists json' data',
     call json g = (OK json', g)
     /\ get_prop json' "data" = OK data'
     /\ get_prop data' "e" = OK (VStr ("Could not find context: " ++ template_str context))
     /\ (forall k, k <> "e" -> get_prop data' k = get_prop (VObj da dprops) k)
     /\ (forall k, k <> "data" -> get_prop json' k = get_prop json k))
  /\ (unknown_function (template_str context) (template_str method) g ->
      exists json' data',
        call json g = (OK json', g)
        /\ get_prop json' "data" = OK data'
        /\ get_prop data' "e"
           = OK (VStr ("Could not find function: " ++ template_str method))
        /\ (forall k, k <> "e" -> get_prop data' k = get_prop (VObj da dprops) k)
        /\ (forall k, k <> "data" -> get_prop json' k = get_prop json k)).
Proof.
  intros Hc Hm Hd.
  destruct json as [| |b|n|x|n|a props]; try discriminate Hd.
  assert (Ha : assoc "data" props = Some (VObj da dprops)).
  { cbn in Hd. destruct (assoc "data" props); inversion Hd; reflexivity. }
  unfold call. rewrite Hc, Hm, Hd. split.
  - intros [H1 H2]. rewrite H1, H2.
    destruct (settle_raises a props da dprops
                ("Could not find context: " ++ template_str context) Ha)
      as (json' & data' & E & H). exists json', data'. now rewrite E.
  - intros [(c & H1 & H2 & H3) | (r & c & H1 & H2 & H3 & H4)];
      destruct (settle_raises a props da dprops
                  ("Could not find function: " ++ template_str method) Ha)
        as (json' & data' & E & H); exists json', data'.
    + rewrite H1, (lifecycle_call_other _ _ _ _ _ _ H2), H3. now rewrite E.
    + rewrite H1, H2, H3, H4. now rewrite E.
Qed.

End Lookup.

(** Both calls of the bench come back with the message in [data.e]. *)
Lemma lookup_failure_reported_witness :
  (exists json' data',
      Adapter.call wrong_context_envelope Bench.registry0 = (OK json', Bench.registry0)
      /\ get_prop json' "data" = OK data'
      /\ get_prop data' "e" = OK (VStr "Could not find context: wrong")
      /\ (forall k, k <> "e" -> get_prop data' k = get_prop (obj []) k)
      /\ (forall k, k <> "data" -> get_prop json' k = get_prop wrong_context_envelope k))
  /\ (exists json' data',
        Adapter.call wrong_function_envelope (adapter world_created)
        = (OK json', adapter world_created)
        /\ get_prop json' "data" = OK data'
        /\ get_prop data' "e" = OK (VStr "Could not find function: not_there")
        /\ (forall k, k <> "e" -> get_prop data' k = get_prop (obj []) k)
        /\ (forall k, k <> "data" ->
                      get_prop json' k = get_prop wrong_function_envelope k)).
Proof.
  split.
  - apply (proj1 (Lookup.lookup_failure_reported Bench.registry0 wrong_context_envelope
                    (VStr "wrong") (VStr "not_there") false [] eq_refl eq_refl eq_refl)).
    split; reflexivity.
  - apply (proj2 (Lookup.lookup_failure_reported (adapter world_created)
                    wrong_function_envelope
                    (VStr "instance-0") (VStr "not_there") false []
                    eq_refl eq_refl eq_refl)).
    right. eexists. exists Bench.TestClass. repeat split; reflexivity.
Defined.

(** * Runs on the test bench *)

(** C1.  A client creates an anonymous instance and deletes it again.  The
    delete leaves the client in the tracker with an empty set and the agent
    subscribed to its client-info topic: the only unsubscription is that of
    the dispatch topic. *)
Theorem delete_last_instance_keeps_client :
  let w := world_created in
  let run := _handleMessage (fst (Bench.delete_message "instance-0"))
                            (snd (Bench.delete_message "instance-0")) w in
  _unnamedInstances (this w) = [(VStr "test.vrpc/host/c1", [VStr "instance-0"])]
  /\ _unnamedInstances (this (world_of run)) = [(VStr "test.vrpc/host/c1", [])]
  /\ _namedInstances (this (world_of run)) = []
  /\ Bench.mqtt_calls (events_of run)
     = [Unsubscribe "test.vrpc/agent1/TestClass/__static__/+";
        Publish (VStr "test.vrpc/host/c1")
          (JSONText
             (obj [("data", obj [("_1", VStr "instance-0"); ("r", VBool true)]);
                   ("sender", VStr "test.vrpc/host/c1"); ("id", VStr "2");
                   ("context", VStr "TestClass"); ("method", VStr "__delete__")]))
          1 false].
Proof. vm_compute. repeat split. Qed.

(** The same in general: [_unregisterInstance] returns, unsubscribes from
    nothing and forgets no client, whatever it is called with. *)
Lemma Map_keys_Map_set m k s s' :
  Map_get m k = Some s' -> Map_keys (Map_set m k s) = Map_keys m.
Proof.
  induction m as [|[k0 s0] rest IH]; cbn; [discriminate |].
  destruct (same_value_zero k k0); cbn; [reflexivity |].
  intros H. f_equal. now apply IH.
Qed.

Lemma Map_keys_without_instance instanceId m :
  Map_keys (without_instance instanceId m) = Map_keys m.
Proof. unfold Map_keys, without_instance. rewrite map_map. reflexivity. Qed.

Lemma _unregisterInstance_forgets_nobody {A : Type} {adapterOps : VrpcAdapter A}
    (instanceId clientId : value) (w : @world A) :
  exists (wasNamed : bool) (w' : @world A),
    _unregisterInstance instanceId clientId w
    = (if wasNamed then OK true else OK false, w',
       if wasNamed
          || match Map_get (_unnamedInstances (this w)) clientId with
             | Some entry => Set_has entry instanceId
             | None => false
             end
       then []
       else [Log warn ("Failed un-registering not registered instance: "
                       ++ template_str instanceId)])
    /\ Map_keys (_unnamedInstances (this w')) = Map_keys (_unnamedInstances (this w))
    /\ Map_keys (_namedInstances (this w')) = Map_keys (_namedInstances (this w)).
Proof.
  unfold _unregisterInstance, bind at 1. cbn [get_this].
  assert (Hnamed : exists (wasNamed : bool) (w' : @world A),
    bind (_unregisterInstance_forEach instanceId clientId (_namedInstances (this w))
            false false)
         (fun r => let '(m, found, gone) := r in
            bind (modify_this
                    (set_namedInstances (if gone then Map_delete m clientId else m)))
                 (fun _ => if negb found
                           then bind (log warn
                                        ("Failed un-registering not registered instance: "
                                         ++ template_str instanceId))
                                     (fun _ => ret false)
                           else ret true)) w
    = (if wasNamed then OK true else OK false, w',
       if wasNamed then []
       else [Log warn ("Failed un-registering not registered instance: "
                       ++ template_str instanceId)])
    /\ Map_keys (_unnamedInstances (this w')) = Map_keys (_unnamedInstances (this w))
    /\ Map_keys (_namedInstances (this w')) = Map_keys (_namedInstances (this w))).
  { unfold bind at 1. rewrite _unregisterInstance_forEach_run. cbn [orb].
    destruct (existsb _ _) eqn:E.
    - exists true. eexists. split; [reflexivity |]. cbn.
      split; [reflexivity | apply Map_keys_without_instance].
    - exists false. eexists. split; [reflexivity |]. cbn.
      split; [reflexivity | apply Map_keys_without_instance]. }
  destruct (Map_get (_unnamedInstances (this w)) clientId) as [entry|] eqn:Eg.
  - destruct (Set_has entry instanceId) eqn:Eh.
    + exists false. eexists. rewrite orb_true_r. split; [reflexivity |]. cbn.
      split; [now apply Map_keys_Map_set with entry | reflexivity].
    + destruct Hnamed as (b & w' & E & K1 & K2). exists b, w'.
      rewrite orb_false_r. cbn [app]. rewrite E. destruct b; auto.
  - destruct Hnamed as (b & w' & E & K1 & K2). exists b, w'.
    rewrite orb_false_r. cbn [app]. rewrite E. destruct b; auto.
Qed.

(** C2.  A client creates an anonymous instance and then goes offline.  The
    handler takes the first characters of the topic up to the ninth from
    the end as the client, [test.vrpc/host/c1/__cli]: it finds no instance
    of such a client, calls the adapter for no [__delete__], drops the event
    listeners of that name and unsubscribes from a topic made of that name.
    The instance stays in the adapter and in the tracker. *)
Theorem offline_message_misses_client :
  let w := world_created in
  let run := _handleMessage (fst Bench.offline_message) (snd Bench.offline_message) w in
  _unnamedInstances (this w) = [(VStr "test.vrpc/host/c1", [VStr "instance-0"])]
  /\ events_of run
     = [Log debug
          "Message arrived with topic: test.vrpc/host/c1/__clientInfo__ and payload:";
        AdapterUnregisterEventListeners (VStr "test.vrpc/host/c1/__cli");
        Unsubscribe "test.vrpc/host/c1/__cli/__clientInfo__"]
  /\ getAvailableInstances "TestClass" (adapter (world_of run)) = ["instance-0"]
  /\ this (world_of run) = this w.
Proof. vm_compute. repeat split. Qed.

(** C6.  A client creates the named instance [alice] and deletes it.  The
    topic the agent unsubscribes from is built from the fourth level of the
    message topic, [__static__], and not from the instance named in [_1]:
    the dispatch topic of [alice] stays subscribed. *)
Theorem delete_unsubscribes_topic_level :
  let w := world_alice in
  let run := _handleMessage (fst (Bench.delete_message "alice"))
                            (snd (Bench.delete_message "alice")) w in
  In (Subscribe ["test.vrpc/agent1/TestClass/alice/+"] 1)
     (snd (Bench.deliver [Bench.createNamed_message] Bench.world0))
  /\ getAvailableInstances "TestClass" (adapter w) = ["alice"]
  /\ getAvailableInstances "TestClass" (adapter (world_of run)) = []
  /\ filter (fun e => match e with Unsubscribe _ => true | _ => false end) (events_of run)
     = [Unsubscribe "test.vrpc/agent1/TestClass/__static__/+"].
Proof. vm_compute. repeat split. right. right. left. reflexivity. Qed.


(** A function that the instance does not have is answered with the message
    in [data.e]. *)
Example unknown_function_answered :
  publications
    (events_of (_handleMessage (fst (Bench.not_there_message "instance-0"))
                               (snd (Bench.not_there_message "instance-0")) world_created))
  = [Publish (VStr "test.vrpc/host/c1")
       (JSONText
          (obj [("data", obj [("e", VStr "Could not find function: not_there")]);
                ("sender", VStr "test.vrpc/host/c1"); ("id", VStr "3");
                ("context", VStr "instance-0"); ("method", VStr "not_there")]))
       1 false].
Proof. vm_compute. reflexivity. Qed.

(** C8 as stated fails.  [drain] returns a BigInt and stores another in the
    object passed as its argument, which is the object in [data._1]: the
    envelope cannot be serialized, neither before nor after [data.r] is
    replaced, and nothing is published. *)
Lemma unserializable_argument_unanswered :
  (exists json' g',
      _call (rpc_request false
               [("data", obj [("_1", obj [])]); ("sender", VStr "test.vrpc/host/c1");
                ("id", VStr "5")] "Ledger" "__static__" "drain") Bench.registry0
      = (OK json', g')
      /\ serializable json' = false)
  /\ events_of (_handleMessage (fst (Bench.ledger_message "drain"))
                               (snd (Bench.ledger_message "drain")) Bench.world0)
     = [Log debug
          "Message arrived with topic: test.vrpc/agent1/Ledger/__static__/drain and payload:";
        AdapterCall
          (obj [("data", obj [("_1", obj [])]); ("sender", VStr "test.vrpc/host/c1");
                ("id", VStr "5"); ("context", VStr "Ledger"); ("method", VStr "drain")]);
        Log debug
          "Failed serialization of return value for: Ledger::drain, because: Do not know how to serialize a BigInt";
        Log error
          "Problem while handling incoming message: Do not know how to serialize a BigInt"].
Proof.
  split; [| vm_compute; reflexivity].
  eexists. eexists. split; [vm_compute; reflexivity | reflexivity].
Qed.

(** ** The general statements at work *)





(** [sum] returns a BigInt and leaves its argument alone: the reply carries
    the sentinel. *)
Lemma not_serializable_reply_witness :
  exists sender data,
    get_prop sum_reply "sender" = OK sender
    /\ get_prop (replace_r sum_reply) "data" = OK data
    /\ get_prop data "r" = OK (VStr "__vrpc::not-serializable__")
    /\ replies (events_of (_handleMessage "test.vrpc/agent1/Ledger/__static__/sum"
                             (JSONText (VObj false sum_props)) Bench.world0))
       = [Publish sender (JSONText (replace_r sum_reply)) (_qos (this Bench.world0)) false].
Proof.
  exact (not_serializable_reply "test.vrpc/agent1/Ledger/__static__/sum"
           "test.vrpc" "agent1" "Ledger" "__static__" "sum" false sum_props
           Bench.world0 {| connected := true |} sum_reply Bench.registry0 false
           [("_1", obj []); ("r", VBigInt "9007199254740993")]
           eq_refl eq_refl eq_refl eq_refl eq_refl eq_refl).
Defined.

(** * The further properties on the test bench *)

Lemma invalid_topic_ignored_witness :
  _handleMessage "test.vrpc/agent1/TestClass" (JSONText (obj [])) Bench.world0
  = (OK tt, Bench.world0,
     [Log debug "Message arrived with topic: test.vrpc/agent1/TestClass and payload:";
      Log warn "Ignoring message with invalid topic: test.vrpc/agent1/TestClass"]).
Proof.
  apply (invalid_topic_ignored "test.vrpc/agent1/TestClass" (obj []) Bench.world0).
  - vm_compute. discriminate.
  - vm_compute. intros [H _]. discriminate H.
Defined.

Lemma clientInfo_not_offline_witness :
  _handleMessage "test.vrpc/host/c1/__clientInfo__"
                 (JSONText (obj [("status", VStr "online")])) world_created
  = (OK tt, world_created,
     [Log debug
        "Message arrived with topic: test.vrpc/host/c1/__clientInfo__ and payload:"]).
Proof.
  exact (clientInfo_not_offline "test.vrpc/host/c1/__clientInfo__"
           "test.vrpc" "host" "c1" (obj [("status", VStr "online")]) (VStr "online")
           world_created eq_refl eq_refl eq_refl).
Defined.

Lemma offline_deletes_in_order_witness :
  let topic := "test.vrpc/host/c1/__clientInfo__" in
  let json := obj [("status", VStr "offline")] in
  split "/" topic = ["test.vrpc"; "host"; "c1"; "__clientInfo__"]
  /\ outcome_of (_handleClientInfoMessage topic json world_two_instances) = OK tt
  /\ adapter_calls (events_of (_handleMessage topic (JSONText json) world_two_instances))
     = [delete_envelope (VStr "instance-0"); delete_envelope (VStr "instance-1")]
  /\ exists n,
       adapter_calls (events_of (_handleClientInfoMessage topic json world_two_instances))
       = map delete_envelope (firstn n [VStr "instance-0"; VStr "instance-1"])
       /\ (outcome_of (_handleClientInfoMessage topic json world_two_instances) = OK tt ->
           n = List.length [VStr "instance-0"; VStr "instance-1"]).
Proof.
  split; [reflexivity |]. split; [reflexivity |]. split; [reflexivity |].
  exact (offline_deletes_in_order "test.vrpc/host/c1/__clientInfo__"
           (obj [("status", VStr "offline")]) [VStr "instance-0"; VStr "instance-1"]
           world_two_instances eq_refl eq_refl).
Defined.

Lemma register_unnamed_then_lookup_witness :
  let run := _registerUnnamedInstance (VStr "instance-1") (VStr "test.vrpc/host/c2")
               world_created in
  outcome_of run = OK tt
  /\ (exists entry,
        Map_get (_unnamedInstances (this (world_of run))) (VStr "test.vrpc/host/c2")
        = Some entry
        /\ Set_has entry (VStr "instance-1") = true)
  /\ (forall other, same_value_zero (VStr "test.vrpc/host/c2") other = false ->
        Map_get (_unnamedInstances (this (world_of run))) other
        = Map_get (_unnamedInstances (this world_created)) other)
  /\ _namedInstances (this (world_of run)) = _namedInstances (this world_created)
  /\ subscribed (events_of run)
     = (if Map_has (_unnamedInstances (this world_created)) (VStr "test.vrpc/host/c2")
           || Map_has (_namedInstances (this world_created)) (VStr "test.vrpc/host/c2")
        then [] else [clientInfo_topic (VStr "test.vrpc/host/c2")]).
Proof.
  exact (register_unnamed_then_lookup (VStr "instance-1") (VStr "test.vrpc/host/c2")
           world_created {| connected := true |} eq_refl eq_refl eq_refl).
Defined.

Lemma register_named_then_has_witness :
  let run := _registerNamedInstance (VStr "bob") (VStr "test.vrpc/host/c2")
               world_alice in
  outcome_of run = OK tt
  /\ outcome_of (_hasNamedInstance (VStr "bob") (world_of run)) = OK true
  /\ _unnamedInstances (this (world_of run)) = _unnamedInstances (this world_alice)
  /\ subscribed (events_of run)
     = (if Map_has (_namedInstances (this world_alice)) (VStr "test.vrpc/host/c2")
           || Map_has (_unnamedInstances (this world_alice)) (VStr "test.vrpc/host/c2")
        then [] else [clientInfo_topic (VStr "test.vrpc/host/c2")]).
Proof.
  exact (register_named_then_has (VStr "bob") (VStr "test.vrpc/host/c2")
           world_alice {| connected := true |} eq_refl eq_refl eq_refl).
Defined.

Lemma register_twice_witness :
  (let w1 := world_of (_registerUnnamedInstance (VStr "instance-1")
                         (VStr "test.vrpc/host/c2") Bench.world0) in
   _registerUnnamedInstance (VStr "instance-1") (VStr "test.vrpc/host/c2") w1
   = (OK tt, w1, []))
  /\ (let w1 := world_of (_registerNamedInstance (VStr "instance-1")
                            (VStr "test.vrpc/host/c2") Bench.world0) in
      _registerNamedInstance (VStr "instance-1") (VStr "test.vrpc/host/c2") w1
      = (OK tt, w1, [])).
Proof.
  exact (register_twice (VStr "instance-1") (VStr "test.vrpc/host/c2")
           Bench.world0 {| connected := true |} eq_refl eq_refl eq_refl).
Defined.


Lemma unregister_anonymous_witness :
  let run := _unregisterInstance (VStr "instance-0") (VStr "test.vrpc/host/c1")
               world_created in
  run = (OK false,
         {| this := set_unnamedInstances
                      (Map_set (_unnamedInstances (this world_created))
                               (VStr "test.vrpc/host/c1")
                               (Set_delete [VStr "instance-0"] (VStr "instance-0")))
                      (this world_created);
            adapter := adapter world_created; hostname := hostname world_created |}, [])
  /\ (exists entry',
        Map_get (_unnamedInstances (this (world_of run))) (VStr "test.vrpc/host/c1")
        = Some entry'
        /\ Set_has entry' (VStr "instance-0") = false)
  /\ _namedInstances (this (world_of run)) = _namedInstances (this world_created).
Proof.
  exact (unregister_anonymous (VStr "instance-0") (VStr "test.vrpc/host/c1")
           [VStr "instance-0"] world_created eq_refl eq_refl).
Defined.




Lemma delete_anonymous_quiet_witness :
  let run := _handleMessage "test.vrpc/agent1/TestClass/__static__/__delete__"
               (JSONText (VObj false delete_anonymous_props)) world_created in
  _unnamedInstances (this (world_of run))
    = Map_set (_unnamedInstances (this world_created)) (VStr "test.vrpc/host/c1")
              (Set_delete [VStr "instance-0"] (VStr "instance-0"))
  /\ _namedInstances (this (world_of run)) = _namedInstances (this world_created)
  /\ subscribed (events_of run) = []
  /\ publications (events_of run)
     = [Publish (VStr "test.vrpc/host/c1") (JSONText delete_anonymous_reply)
                (_qos (this world_created)) false].
Proof.
  exact (delete_anonymous_quiet "test.vrpc/agent1/TestClass/__static__/__delete__"
           "test.vrpc" "agent1" "TestClass" "__static__" false delete_anonymous_props
           world_created {| connected := true |} delete_anonymous_reply
           (snd (_call (rpc_request false delete_anonymous_props "TestClass"
                          "__static__" "__delete__") (adapter world_created)))
           false [("_1", VStr "instance-0"); ("r", VBool true)]
           (VStr "test.vrpc/host/c1") [VStr "instance-0"]
           eq_refl eq_refl eq_refl eq_refl eq_refl eq_refl eq_refl eq_refl).
Defined.

Lemma adapter_throw_logged_witness :
  _handleMessage "test.vrpc/agent1/TestClass/instance-0/not_there"
                 (JSONText (VObj false no_data_props)) world_created
  = (OK tt, with_adapter (adapter world_created) world_created,
     [Log debug ("Message arrived with topic: "
                 ++ "test.vrpc/agent1/TestClass/instance-0/not_there" ++ " and payload:");
      AdapterCall (rpc_request false no_data_props "TestClass" "instance-0" "not_there");
      Log error ("Problem while handling incoming message: "
                 ++ err_message (TypeError "Cannot set property 'e' of undefined"))]).
Proof.
  exact (adapter_throw_logged "test.vrpc/agent1/TestClass/instance-0/not_there"
           "test.vrpc" "agent1" "TestClass" "instance-0" "not_there" false
           no_data_props world_created
           (TypeError "Cannot set property 'e' of undefined")
           (adapter world_created) eq_refl eq_refl).
Defined.

Lemma no_slash_TestClass : no_slash "TestClass".
Proof.
  intros H. vm_compute in H.
  repeat (destruct H as [H|H]; [discriminate H |]). exact H.
Qed.

Lemma no_slash_alice : no_slash "alice".
Proof.
  intros H. vm_compute in H.
  repeat (destruct H as [H|H]; [discriminate H |]). exact H.
Qed.

Lemma no_slash_create : no_slash "__create__".
Proof.
  intros H. vm_compute in H.
  repeat (destruct H as [H|H]; [discriminate H |]). exact H.
Qed.

Lemma topics_of_constructed_agent_witness :
  split "/" (_baseTopic Bench.agent0) = [_domain Bench.agent0; _agent Bench.agent0]
  /\ split "/" (_baseTopic Bench.agent0 ++ "/" ++ "TestClass" ++ "/__static__/"
                ++ "__create__")
     = [_domain Bench.agent0; _agent Bench.agent0; "TestClass"; "__static__";
        "__create__"]
  /\ split "/" (instance_topic Bench.agent0 "TestClass" "alice")
     = [_domain Bench.agent0; _agent Bench.agent0; "TestClass"; "alice"; "+"].
Proof.
  exact (topics_of_constructed_agent Bench.options0 Bench.agent0
           "TestClass" "alice" "__create__" eq_refl
           no_slash_TestClass no_slash_alice no_slash_create).
Defined.

Lemma classInfo_serializable_bench (className : string) :
  In className (getAvailableClasses (adapter Bench.world0)) ->
  serializable (classInfo className (adapter Bench.world0)) = true.
Proof.
  intros H. vm_compute in H. destruct H as [<-|[<-|[]]]; reflexivity.
Qed.

Lemma first_connect_witness :
  let run := _handleConnect Bench.world0 in
  outcome_of run = OK tt /\ world_of run = Bench.world0
  /\ subscribed (events_of run)
     = flat_map (fun className =>
                   map (fun func => _baseTopic (this Bench.world0) ++ "/" ++ className
                                    ++ "/__static__/" ++ func)
                       (getAvailableStaticFunctions className (adapter Bench.world0)))
                (getAvailableClasses (adapter Bench.world0))
  /\ ~ In (Subscribe [] (_qos (this Bench.world0))) (events_of run)
  /\ retained_topics (events_of run)
     = VStr (_baseTopic (this Bench.world0) ++ "/__agentInfo__")
       :: map (fun className => VStr (classInfo_topic (this Bench.world0) className))
              (getAvailableClasses (adapter Bench.world0)).
Proof.
  exact (first_connect Bench.world0 {| connected := true |} eq_refl eq_refl
           classInfo_serializable_bench).
Defined.

Lemma end_connected_witness :
  let run := end_ true Bench.world0 in
  run
  = (OK tt,
     {| this := set_client (Some {| connected := false |}) (this Bench.world0);
        adapter := adapter Bench.world0; hostname := hostname Bench.world0 |},
     [Publish (VStr "test.vrpc/agent1/__agentInfo__")
              (agentInfo "offline" Bench.world0) 1 true;
      Publish (VStr "test.vrpc/agent1/__agentInfo__") NoPayload 1 true;
      Publish (VStr "test.vrpc/agent1/TestClass/__classInfo__") NoPayload 1 true;
      Publish (VStr "test.vrpc/agent1/Ledger/__classInfo__") NoPayload 1 true;
      ClientEnd; ClearPersistedSession])
  /\ end_ false (world_of run) = (OK tt, world_of run, [Emit "end"]).
Proof.
  exact (end_connected true false Bench.world0 {| connected := true |} eq_refl eq_refl).
Defined.

Lemma end_clears_what_connect_retained_witness :
  cleared_topics (events_of (end_ true (world_of (_handleConnect Bench.world0))))
  = retained_topics (events_of (_handleConnect Bench.world0)).
Proof.
  exact (end_clears_what_connect_retained Bench.world0 {| connected := true |}
           eq_refl eq_refl eq_refl classInfo_serializable_bench).
Defined.

